(** * IDS dataset scenario: the address plan and the application schedule
      of [scr/ids_dataset.cc]

    The program is one [main] that (1) creates the node groups, (2) numbers
    every link with [Ipv4AddressHelper], (3) installs servers, benign clients
    and attack generators, each with a [Start] and a [Stop] time, and
    (4) stops the simulator at [appStopTime].  The development below embeds
    that build phase: the address helper as a state-and-failure monad over
    32-bit addresses, the installation of applications as a monad that
    threads the random sources and collects the installed applications in
    installation order.

    Times are C++ [double]s in the source.  They are embedded as rationals:
    every time literal of the source is a short decimal, and the random
    variates enter as rationals supplied by the random environment. *)

From Stdlib Require Import ZArith QArith Qround List String Bool Lia Lqa.
Import ListNotations.
Open Scope Z_scope.

(* ================================================================== *)
(** ** Nodes *)

(** The [NodeContainer]s declared at the top of [main]. *)
Inductive NodeContainer : Set :=
| coreRouters | distributionSwitches | accessSwitchesHR | enterpriseClients
| vpnServer | remoteClients | wifiApNode | wifiStaNodes | dmzServers.

Scheme Equality for NodeContainer.

(** [c.Create(n)]: the sizes the source gives to each container. *)
Definition GetN (c : NodeContainer) : Z :=
  match c with
  | coreRouters => 1
  | distributionSwitches => 2
  | accessSwitchesHR => 1
  | enterpriseClients => 10
  | dmzServers => 5
  | vpnServer => 1
  | wifiApNode => 1
  | wifiStaNodes => 10
  | remoteClients => 10
  end.

(** A node is named by its container and its position in it: [c.Get(i)]. *)
Record Node : Set := Get { node_container : NodeContainer; node_index : Z }.

Definition Node_eqb (a b : Node) : bool :=
  NodeContainer_beq (node_container a) (node_container b)
  && (node_index a =? node_index b).

(** All nodes [c.Get(0)], ..., [c.Get(n-1)] of a container. *)
Definition nodes_of (c : NodeContainer) : list Node :=
  map (fun i => Get c (Z.of_nat i)) (seq 0 (Z.to_nat (GetN c))).

(* ================================================================== *)
(** ** 32-bit addresses *)

Definition u32 (x : Z) : Z := x mod 2 ^ 32.

(** [Ipv4Address("a.b.c.d")], host byte order. *)
Definition Ipv4Address (a b c d : Z) : Z :=
  Z.lor (Z.lor (Z.lor (Z.shiftl a 24) (Z.shiftl b 16)) (Z.shiftl c 8)) d.

(** [Ipv4Address] built from a dotted string whose last field is printed
    from an unsigned number: a field above 255 does not denote an address. *)
Definition Ipv4Address_last (a b c : Z) (d : Z) : option Z :=
  if d <=? 255 then Some (Ipv4Address a b c d) else None.

Definition mask30 : Z := Ipv4Address 255 255 255 252.
Definition mask24 : Z := Ipv4Address 255 255 255 0.

(** An address configured on an interface: [Ipv4InterfaceAddress(local, mask)]
    together with the node that owns the interface. *)
Record Ipv4Interface : Set := mkInterface {
  if_node : Node;
  if_local : Z;
  if_mask : Z
}.

(** [Ipv4InterfaceContainer]: the interfaces returned by one [Assign]. *)
Definition Ipv4InterfaceContainer : Set := list Ipv4Interface.

(** [c.GetAddress(i)].  Every index the program uses is inside the
    container; outside it the default address 0 stands in for the
    out-of-range vector access. *)
Definition GetAddress (c : Ipv4InterfaceContainer) (i : nat) : Z :=
  match nth_error c i with
  | Some x => if_local x
  | None => 0
  end.

(* ================================================================== *)
(** ** The address helper *)

(** Modelled from the spec: the AddressAllocator of section 4.1.  The
    program delegates allocation to ns-3's [Ipv4AddressHelper], a library
    class that is not part of this repository; what is missing is its
    [SetBase] / [Assign] / [NewNetwork] implementation.  The model keeps a
    network cursor and a host cursor, hands out successive host addresses of
    the current block, fails when the host space of the block is exhausted
    or an address is handed out twice, and advances to the next block on
    [NewNetwork]. *)
Record Ipv4AddressHelper : Set := mkHelper {
  m_network : Z;   (* network number, shifted down by [m_shift] *)
  m_mask : Z;
  m_address : Z;   (* host cursor *)
  m_base : Z;      (* first host number *)
  m_shift : Z;     (* number of host bits *)
  m_max : Z        (* last host number that may be handed out *)
}.

(** Allocation state: the helper and every interface address configured so
    far, oldest first. *)
Record AllocState : Set := mkAlloc {
  helper : Ipv4AddressHelper;
  allocated : list Ipv4Interface
}.

(** [None] is a fatal abort of the build. *)
Definition Alloc (A : Type) : Type := AllocState -> option (A * AllocState).

Definition aret {A} (a : A) : Alloc A := fun s => Some (a, s).
Definition abind {A B} (c : Alloc A) (k : A -> Alloc B) : Alloc B :=
  fun s => match c s with
           | Some (a, s') => k a s'
           | None => None
           end.

(** An address read from a string; the build stops on a string that is not
    an address. *)
Definition parsed (a : option Z) : Alloc Z :=
  fun s => match a with
           | Some x => Some (x, s)
           | None => None
           end.

Declare Scope alloc_scope.
Delimit Scope alloc_scope with alloc.
Notation "x <- c ;; k" := (abind c (fun x => k))
  (at level 61, c at next level, right associativity) : alloc_scope.
Notation "c ;; k" := (abind c (fun _ => k))
  (at level 61, right associativity) : alloc_scope.

(** Modelled from the spec: the size class of a block, missing with the
    helper.  It is the number of trailing zero bits of the mask, found in at
    most 32 tries. *)
Fixpoint NumAddressBits_from (fuel : nat) (i maskbits : Z) : option Z :=
  match fuel with
  | O => None
  | S fuel' =>
      if Z.testbit maskbits 0 then Some i
      else NumAddressBits_from fuel' (i + 1) (Z.shiftr maskbits 1)
  end.

Definition NumAddressBits (maskbits : Z) : option Z :=
  NumAddressBits_from 32 0 maskbits.

(** Modelled from the spec: [address.SetBase(network, mask)], the request
    of a block at a given base, missing with the helper.  The host cursor
    starts at the default first host 0.0.0.1; a base with host bits set and
    a mask without a set bit are fatal. *)
Definition SetBase (network mask : Z) : Alloc unit :=
  fun s =>
    if negb (Z.land network (Z.lxor mask (2 ^ 32 - 1)) =? 0) then None
    else
      match NumAddressBits mask with
      | None => None
      | Some shift =>
          Some (tt, mkAlloc
                      (mkHelper (Z.shiftr network shift) mask 1 1 shift
                                (Z.shiftl 1 shift - 2))
                      (allocated s))
      end.

Definition is_allocated (addr : Z) (l : list Ipv4Interface) : bool :=
  existsb (fun x => if_local x =? addr) l.

(** Modelled from the spec: [NewAddress()], missing with the helper, for
    the interface of node [n]: post-increment of the host cursor, fatal when
    the host space of the block is exhausted and on a duplicate address. *)
Definition NewAddress (n : Node) : Alloc Ipv4Interface :=
  fun s =>
    let h := helper s in
    if m_max h <? m_address h then None
    else
      let addr := Z.lor (Z.shiftl (m_network h) (m_shift h)) (m_address h) in
      if is_allocated addr (allocated s) then None
      else
        let i := mkInterface n addr (m_mask h) in
        Some (i, mkAlloc
                   (mkHelper (m_network h) (m_mask h) (u32 (m_address h + 1))
                             (m_base h) (m_shift h) (m_max h))
                   (allocated s ++ [i])).

(** Modelled from the spec: [address.Assign(devices)], missing with the
    helper: one new address per device, in order.  A device container is
    given by the nodes that own its devices. *)
Fixpoint Assign (devices : list Node) : Alloc Ipv4InterfaceContainer :=
  match devices with
  | [] => aret []
  | n :: rest =>
      (i <- NewAddress n ;;
       c <- Assign rest ;;
       aret (i :: c))%alloc
  end.

(** Modelled from the spec: [address.NewNetwork()], missing with the
    helper: the network cursor advances to the next block of the same size
    and the host cursor returns to the first host. *)
Definition NewNetwork : Alloc unit :=
  fun s =>
    let h := helper s in
    Some (tt, mkAlloc
                (mkHelper (u32 (m_network h + 1)) (m_mask h) (m_base h)
                          (m_base h) (m_shift h) (m_max h))
                (allocated s)).

(** The network the helper currently allocates from. *)
Definition current_network (s : AllocState) : Z :=
  Z.shiftl (m_network (helper s)) (m_shift (helper s)).

(** Loop [for (uint32_t i = 0; i < n; ++i)] in the allocation monad. *)
Fixpoint afor_from (n : nat) (i : Z) (body : Z -> Alloc unit) : Alloc unit :=
  match n with
  | O => aret tt
  | S n' => (body i ;; afor_from n' (i + 1) body)%alloc
  end.

Definition afor (n : Z) (body : Z -> Alloc unit) : Alloc unit :=
  afor_from (Z.to_nat n) 0 body.

(* ================================================================== *)
(** ** Device containers and the address plan of [main] *)

Definition p2pDevices1 : list Node :=
  [Get coreRouters 0; Get distributionSwitches 0].
Definition p2pDevices2 : list Node :=
  [Get coreRouters 0; Get distributionSwitches 1].
Definition vpnToCore : list Node := [Get vpnServer 0; Get coreRouters 0].
Definition enterpriseDevices : list Node :=
  nodes_of enterpriseClients ++ [Get accessSwitchesHR 0].
Definition accessToDistDevices : list Node :=
  [Get accessSwitchesHR 0; Get distributionSwitches 0].
Definition dmzDevices : list Node :=
  nodes_of dmzServers ++ [Get distributionSwitches 1].
Definition wifiApToDistDevices : list Node :=
  [Get wifiApNode 0; Get distributionSwitches 0].
Definition wifiApDevice : list Node := nodes_of wifiApNode.
Definition wifiStaDevices : list Node := nodes_of wifiStaNodes.
(** [vpnDevices[i]]: the link between the VPN server and remote client [i]. *)
Definition vpnDevices (i : Z) : list Node :=
  [Get vpnServer 0; Get remoteClients i].

(** The interface containers [main] keeps, and the addresses configured on
    every node (what [node->GetObject<Ipv4>()] answers from). *)
Record Interfaces : Set := mkInterfaces {
  vpnInterfaces : Ipv4InterfaceContainer;
  enterpriseInterfaces : Ipv4InterfaceContainer;
  accessToDistInterfaces : Ipv4InterfaceContainer;
  dmzInterfaces : Ipv4InterfaceContainer;
  wifiApToDistInterfaces : Ipv4InterfaceContainer;
  apInterface : Ipv4InterfaceContainer;
  staInterfaces : Ipv4InterfaceContainer;
  ipv4 : list Ipv4Interface
}.

(** [Assign] followed by reading back everything configured so far. *)
Definition configured : Alloc (list Ipv4Interface) :=
  fun s => Some (allocated s, s).

(** The two core-router links (source lines 372-379). *)
Definition assignFirstCoreLink : Alloc unit :=
  (SetBase (Ipv4Address 10 1 0 0) mask30 ;;
   _ <- Assign p2pDevices1 ;;
   NewNetwork)%alloc.

Definition assignCoreLinks : Alloc unit :=
  (assignFirstCoreLink ;;
   SetBase (Ipv4Address 10 1 0 4) mask30 ;;
   _ <- Assign p2pDevices2 ;;
   NewNetwork)%alloc.

(** The whole address plan (source lines 370-430), as a function of the
    network number given to the DMZ segment, so that a re-numbering of that
    segment can be stated. *)
Definition assignAddressesAt (dmzNetwork : Z) : Alloc Interfaces :=
  (assignCoreLinks ;;
   SetBase (Ipv4Address 10 1 0 8) mask30 ;;
   vpnI <- Assign vpnToCore ;;
   NewNetwork ;;
   SetBase (Ipv4Address 10 1 1 0) mask24 ;;
   entI <- Assign enterpriseDevices ;;
   NewNetwork ;;
   SetBase (Ipv4Address 10 1 2 0) mask24 ;;
   a2dI <- Assign accessToDistDevices ;;
   NewNetwork ;;
   SetBase dmzNetwork mask24 ;;
   dmzI <- Assign dmzDevices ;;
   NewNetwork ;;
   SetBase (Ipv4Address 10 1 3 0) mask24 ;;
   w2dI <- Assign wifiApToDistDevices ;;
   NewNetwork ;;
   SetBase (Ipv4Address 10 2 1 0) mask24 ;;
   apI <- Assign wifiApDevice ;;
   staI <- Assign wifiStaDevices ;;
   NewNetwork ;;
   afor (GetN remoteClients) (fun i =>
     subnet <- parsed (Ipv4Address_last 10 1 0 (u32 (u32 (i * 4) + 20))) ;;
     SetBase subnet mask30 ;;
     _ <- Assign (vpnDevices i) ;;
     NewNetwork) ;;
   all <- configured ;;
   aret (mkInterfaces vpnI entI a2dI dmzI w2dI apI staI all))%alloc.

(** The plan with the source's DMZ network, 10.3.1.0. *)
Definition assignAddresses : Alloc Interfaces :=
  assignAddressesAt (Ipv4Address 10 3 1 0).

(** A helper on which [SetBase] has not been called yet. *)
Definition fresh_alloc : AllocState :=
  mkAlloc (mkHelper 0 0 0 0 0 0) [].

(** [node->GetObject<Ipv4>()->GetAddress(k, 0).GetLocal()]: interface 0 is
    the loopback, interface [k >= 1] is the [k]-th interface configured on
    the node. *)
Definition node_GetAddress (all : list Ipv4Interface) (n : Node) (k : nat)
  : Z :=
  match k with
  | O => Ipv4Address 127 0 0 1
  | S k' =>
      match nth_error (filter (fun x => Node_eqb (if_node x) n) all) k' with
      | Some x => if_local x
      | None => 0
      end
  end.

(** *** Subnets *)

(** The subnet of an interface: network address and mask. *)
Definition subnet_of (x : Ipv4Interface) : Z * Z :=
  (Z.land (if_local x) (if_mask x), if_mask x).

(** First and last address of a subnet. *)
Definition subnet_lo (s : Z * Z) : Z := fst s.
Definition subnet_hi (s : Z * Z) : Z :=
  Z.lor (fst s) (Z.lxor (snd s) (2 ^ 32 - 1)).

Definition ranges_intersect (s t : Z * Z) : Prop :=
  exists a, subnet_lo s <= a <= subnet_hi s /\ subnet_lo t <= a <= subnet_hi t.

Definition ranges_disjointb (s t : Z * Z) : bool :=
  (subnet_hi s <? subnet_lo t) || (subnet_hi t <? subnet_lo s).

Definition subnet_eqb (s t : Z * Z) : bool :=
  (fst s =? fst t) && (snd s =? snd t).

(** The distinct subnets of a list of interfaces, in order of first use. *)
Fixpoint subnets (l : list Ipv4Interface) : list (Z * Z) :=
  match l with
  | [] => []
  | x :: rest =>
      subnet_of x ::
      filter (fun s => negb (subnet_eqb s (subnet_of x))) (subnets rest)
  end.


(* ================================================================== *)
(** ** Random sources *)

(** What the build phase reads from outside: the uniform variates of the
    ns-3 random streams ([RandU01] of stream [s], draw [k]), the logarithm
    the exponential variable applies to a variate (as [-std::log(v)], which
    is not a rational function), and the successive results of libc's
    [rand()], which are never negative. *)
Record Random : Type := mkRandom {
  RandU01 : nat -> nat -> Q;
  neg_log : Q -> Q;
  rand : nat -> N
}.

(** Bookkeeping of the random sources: ns-3 gives every random-variable
    object a stream of its own when it is created, and every object counts
    its draws; [rand()] is one process-wide sequence. *)
Record RngState : Set := mkRng {
  draws : list nat;     (* draws made so far, per stream, by stream number *)
  randCalls : nat       (* calls of [rand()] made so far *)
}.

Definition rng0 : RngState := mkRng [] 0.

Definition drawn (st : RngState) (s : nat) : nat := nth s (draws st) 0%nat.

Fixpoint bump (l : list nat) (s : nat) : list nat :=
  match l, s with
  | [], _ => []
  | k :: rest, O => S k :: rest
  | k :: rest, S s' => k :: bump rest s'
  end.

(** [Ptr<UniformRandomVariable>] with its [Min] and [Max] attributes. *)
Record UniformRandomVariable : Set := mkUniform {
  u_stream : nat; u_min : Q; u_max : Q
}.

(** [Ptr<ExponentialRandomVariable>] with its [Mean] attribute. *)
Record ExponentialRandomVariable : Set := mkExponential {
  e_stream : nat; e_mean : Q
}.

(** Conversion of a [double] to an unsigned integer: truncation. *)
Definition trunc (q : Q) : Z := Z.quot (Qnum q) (Z.pos (Qden q)).

(* ================================================================== *)
(** ** Installed applications *)

Inductive SocketFactory : Set := TcpSocketFactory | UdpSocketFactory.
Inductive Helper : Set :=
| PacketSinkHelper | UdpEchoServerHelper
| OnOffHelper | BulkSendHelper | UdpEchoClientHelper.

Scheme Equality for SocketFactory.
Scheme Equality for Helper.

(** Which block of [main] installed an application. *)
Inductive Service : Set :=
| HttpServer | HttpsServer | SmtpServer | ImapServer | Pop3Server | DnsServer
| FtpServer | SshServer | EchoServer | StreamServer | FakeHttpServer
| CncServer.
Inductive Population : Set := Enterprise | WiFi | Remote.
Inductive Protocol : Set :=
| HTTP | HTTPS | Email | DNS | FTP | SSH | Echo | Streaming.
Inductive AttackKind : Set :=
| SynFlood | UdpFlood | IcmpFlood | PortScan | MitM | BruteForceFtp
| SqlInjection | BruteForceSsh | FtpLoginFlood | BotnetCnC | VpnFlood
| CredentialStuffing | XSS | ArpSpoofing | ZeroDay | DDoS.
Inductive Provenance : Set :=
| ServerApp (s : Service)
| ClientApp (p : Population) (pr : Protocol)
| AttackApp (k : AttackKind).

Scheme Equality for Service.
Scheme Equality for Population.
Scheme Equality for Protocol.
Scheme Equality for AttackKind.
Scheme Equality for Provenance.

(** Attribute values handed to [SetAttribute]. *)
Inductive AttributeValue : Set :=
| UintegerValue (n : Z)
| TimeValue (seconds : Q)
| DataRateValue (bps : Z)
| StringValue (s : string)
| ConstantRandomVariable (c : Q).
    (* "ns3::ConstantRandomVariable[Constant=" + std::to_string(c) + "]" *)

(** One installed application: a helper bound to an address and a port,
    its attributes, the node it is installed on, and its [Start] and [Stop]
    times in seconds.  A server's address is [Ipv4Address::GetAny()]. *)
Record Application : Set := mkApp {
  app_label : Provenance;
  app_helper : Helper;
  app_factory : SocketFactory;
  app_address : Z;
  app_port : Z;
  app_attributes : list (string * AttributeValue);
  app_node : Node;
  app_start : Q;
  app_stop : Q
}.

Definition GetAny : Z := 0.

Definition is_server (a : Application) : bool :=
  match app_helper a with
  | PacketSinkHelper | UdpEchoServerHelper => true
  | _ => false
  end.

(** Value of an attribute, when it was set. *)
Fixpoint attribute (name : string) (l : list (string * AttributeValue))
  : option AttributeValue :=
  match l with
  | [] => None
  | (n, v) :: rest => if String.eqb n name then Some v else attribute name rest
  end.

(* ================================================================== *)
(** ** The installation monad *)

(** A build step reads the random environment, advances the bookkeeping of
    the random sources and installs applications. *)
Record Result (A : Type) : Type := mkResult {
  value : A;
  rng : RngState;
  installed : list Application
}.
Arguments mkResult {A}.
Arguments value {A}.
Arguments rng {A}.
Arguments installed {A}.

Definition M (A : Type) : Type := Random -> RngState -> Result A.

Definition ret {A} (a : A) : M A := fun _ st => mkResult a st [].

Definition bind {A B} (c : M A) (k : A -> M B) : M B :=
  fun env st =>
    let r := c env st in
    let r' := k (value r) env (rng r) in
    mkResult (value r') (rng r') (installed r ++ installed r').

Declare Scope sched_scope.
Delimit Scope sched_scope with sched.
Notation "x <- c ;; k" := (bind c (fun x => k))
  (at level 61, c at next level, right associativity) : sched_scope.
Notation "c ;; k" := (bind c (fun _ => k))
  (at level 61, right associativity) : sched_scope.

(** [helper.Install(node)] followed by [app.Start] and [app.Stop]. *)
Definition Install (a : Application) : M unit :=
  fun _ st => mkResult tt st [a].

(** [CreateObject<UniformRandomVariable>()] and its two [SetAttribute]s. *)
Definition CreateUniform (min max : Q) : M UniformRandomVariable :=
  fun _ st =>
    mkResult (mkUniform (List.length (draws st)) min max)
             (mkRng (draws st ++ [0%nat]) (randCalls st)) [].

(** [CreateObject<ExponentialRandomVariable>()] and its [Mean]. *)
Definition CreateExponential (mean : Q) : M ExponentialRandomVariable :=
  fun _ st =>
    mkResult (mkExponential (List.length (draws st)) mean)
             (mkRng (draws st ++ [0%nat]) (randCalls st)) [].

(** Next variate of a stream. *)
Definition next_variate (s : nat) : M Q :=
  fun env st =>
    mkResult (RandU01 env s (drawn st s))
             (mkRng (bump (draws st) s) (randCalls st)) [].

(** [UniformRandomVariable::GetValue()]: [min + v * (max - min)]. *)
Definition GetValue (x : UniformRandomVariable) : M Q :=
  (v <- next_variate (u_stream x) ;;
   ret (u_min x + v * (u_max x - u_min x))%Q)%sched.

(** [UniformRandomVariable::GetInteger()]:
    [(uint32_t) GetValue(min, max + 1)]. *)
Definition GetInteger (x : UniformRandomVariable) : M Z :=
  (v <- next_variate (u_stream x) ;;
   ret (u32 (trunc (u_min x + v * (u_max x + 1 - u_min x))%Q)))%sched.

(** [ExponentialRandomVariable::GetValue()]: [-mean * log(v)]. *)
Definition GetValueExp (x : ExponentialRandomVariable) : M Q :=
  fun env st =>
    mkResult (e_mean x * neg_log env (RandU01 env (e_stream x)
                                              (drawn st (e_stream x))))%Q
             (mkRng (bump (draws st) (e_stream x)) (randCalls st)) [].

(** libc [rand()]. *)
Definition crand : M Z :=
  fun env st =>
    mkResult (Z.of_N (rand env (randCalls st)))
             (mkRng (draws st) (S (randCalls st))) [].

(** [for (uint32_t i = 0; i < n; ++i) body]. *)
Fixpoint for_from (n : nat) (i : Z) (body : Z -> M unit) : M unit :=
  match n with
  | O => ret tt
  | S n' => (body i ;; for_from n' (i + 1) body)%sched
  end.

Definition for_ (n : Z) (body : Z -> M unit) : M unit :=
  for_from (Z.to_nat n) 0 body.

(** [for (x : v) body], and the indexed loop over a vector. *)
Fixpoint for_each {A} (v : list A) (body : A -> M unit) : M unit :=
  match v with
  | [] => ret tt
  | x :: rest => (body x ;; for_each rest body)%sched
  end.

Fixpoint for_index_from {A} (v : list A) (i : Z) (body : Z -> A -> M unit)
  : M unit :=
  match v with
  | [] => ret tt
  | x :: rest => (body i x ;; for_index_from rest (i + 1) body)%sched
  end.

Definition for_index {A} (v : list A) (body : Z -> A -> M unit) : M unit :=
  for_index_from v 0 body.

(** The applications a build step installs, from fresh random sources. *)
Definition run {A} (c : M A) (env : Random) : list Application :=
  installed (c env rng0).

(* ================================================================== *)
(** ** The schedule of [main] *)

Local Open Scope Q_scope.
Local Open Scope string_scope.

Definition appStartTime : Q := 1.0.
Definition appStopTime : Q := 1500.0.

Definition httpPort : Z := 80.
Definition httpsPort : Z := 443.
Definition smtpPort : Z := 25.
Definition imapPort : Z := 143.
Definition pop3Port : Z := 110.
Definition dnsPort : Z := 53.
Definition ftpPort : Z := 21.
Definition sshPort : Z := 22.
Definition echoPort : Z := 9.
Definition streamPort : Z := 554.

(** The helpers, each installed on one node and given its window. *)
Definition PacketSink (l : Provenance) (f : SocketFactory) (port : Z)
    (node : Node) (start stop : Q) : M unit :=
  Install (mkApp l PacketSinkHelper f GetAny port [] node start stop).

Definition UdpEchoServer (l : Provenance) (port : Z)
    (node : Node) (start stop : Q) : M unit :=
  Install (mkApp l UdpEchoServerHelper UdpSocketFactory GetAny port []
                 node start stop).

Definition OnOff (l : Provenance) (f : SocketFactory) (addr port : Z)
    (attrs : list (string * AttributeValue))
    (node : Node) (start stop : Q) : M unit :=
  Install (mkApp l OnOffHelper f addr port attrs node start stop).

Definition BulkSend (l : Provenance) (addr port : Z)
    (attrs : list (string * AttributeValue))
    (node : Node) (start stop : Q) : M unit :=
  Install (mkApp l BulkSendHelper TcpSocketFactory addr port attrs
                 node start stop).

Definition UdpEchoClient (l : Provenance) (addr port : Z)
    (attrs : list (string * AttributeValue))
    (node : Node) (start stop : Q) : M unit :=
  Install (mkApp l UdpEchoClientHelper UdpSocketFactory addr port attrs
                 node start stop).

(** [OnOffHelper::SetConstantRate(rate, packetSize)]. *)
Definition SetConstantRate (bps : Z) (packetSize : Z)
  : list (string * AttributeValue) :=
  [("OnTime", StringValue "ns3::ConstantRandomVariable[Constant=1000]");
   ("OffTime", StringValue "ns3::ConstantRandomVariable[Constant=0]");
   ("DataRate", DataRateValue bps);
   ("PacketSize", UintegerValue packetSize)].

(** *** Servers in the DMZ (source lines 506-613) *)

Definition installServers : M unit :=
  (PacketSink (ServerApp HttpServer) TcpSocketFactory httpPort
              (Get dmzServers 0) appStartTime appStopTime ;;
   PacketSink (ServerApp HttpsServer) TcpSocketFactory httpsPort
              (Get dmzServers 0) appStartTime appStopTime ;;
   PacketSink (ServerApp SmtpServer) TcpSocketFactory smtpPort
              (Get dmzServers 1) appStartTime appStopTime ;;
   PacketSink (ServerApp ImapServer) TcpSocketFactory imapPort
              (Get dmzServers 1) appStartTime appStopTime ;;
   PacketSink (ServerApp Pop3Server) TcpSocketFactory pop3Port
              (Get dmzServers 1) appStartTime appStopTime ;;
   UdpEchoServer (ServerApp DnsServer) dnsPort
              (Get dmzServers 2) appStartTime appStopTime ;;
   PacketSink (ServerApp FtpServer) TcpSocketFactory ftpPort
              (Get dmzServers 3) appStartTime appStopTime ;;
   PacketSink (ServerApp SshServer) TcpSocketFactory sshPort
              (Get dmzServers 3) appStartTime appStopTime ;;
   UdpEchoServer (ServerApp EchoServer) echoPort
              (Get dmzServers 4) appStartTime appStopTime ;;
   PacketSink (ServerApp StreamServer) UdpSocketFactory streamPort
              (Get dmzServers 0) appStartTime appStopTime)%sched.

(** The email port chosen by [protocolChoice]. *)
Definition emailPortOf (protocolChoice : Z) : Z :=
  if (protocolChoice =? 0)%Z then smtpPort
  else if (protocolChoice =? 1)%Z then imapPort
  else pop3Port.

(** *** Enterprise clients (source lines 663-932) *)

Definition enterpriseWeb (webServerIp : Z) : M unit :=
  (randPayloadSize <- CreateUniform 512 (10 * 1024) ;;
   randInterRequestTime <- CreateExponential 0.5 ;;
   for_ (GetN enterpriseClients) (fun i =>
     let clientNode := Get enterpriseClients i in
     size <- GetValue randPayloadSize ;;
     jitter <- GetValueExp randInterRequestTime ;;
     OnOff (ClientApp Enterprise HTTP) TcpSocketFactory webServerIp httpPort
       [("OnTime", StringValue "ns3::ConstantRandomVariable[Constant=0.2]");
        ("OffTime", StringValue "ns3::ExponentialRandomVariable[Mean=1.5]");
        ("DataRate", StringValue "1Mbps");
        ("PacketSize", UintegerValue (trunc size))]
       clientNode (5.0 + inject_Z i + jitter) appStopTime ;;
     size' <- GetValue randPayloadSize ;;
     jitter' <- GetValueExp randInterRequestTime ;;
     OnOff (ClientApp Enterprise HTTPS) TcpSocketFactory webServerIp httpsPort
       [("OnTime", StringValue "ns3::ConstantRandomVariable[Constant=0.3]");
        ("OffTime", StringValue "ns3::ExponentialRandomVariable[Mean=2.0]");
        ("DataRate", StringValue "500Kbps");
        ("PacketSize", UintegerValue (trunc size'))]
       clientNode (6.0 + inject_Z i + jitter') appStopTime))%sched.

Definition enterpriseEmail (emailServerIp : Z) : M unit :=
  (randProtocol <- CreateUniform 0.0 2.0 ;;
   emailSizeRand <- CreateUniform (50 * 1024) (150 * 1024) ;;
   emailIntervalRand <- CreateExponential 30.0 ;;
   for_ (GetN enterpriseClients) (fun i =>
     let clientNode := Get enterpriseClients i in
     protocolChoice <- GetInteger randProtocol ;;
     for_ 10 (fun j =>
       size <- GetValue emailSizeRand ;;
       gap <- GetValueExp emailIntervalRand ;;
       BulkSend (ClientApp Enterprise Email) emailServerIp
         (emailPortOf protocolChoice)
         [("MaxBytes", UintegerValue (trunc size))]
         clientNode (10.0 + inject_Z (u32 (i * 2)) + gap) appStopTime)))%sched.

Definition enterpriseDns (dnsServerIp : Z) : M unit :=
  (dnsIntervalRand <- CreateExponential 0.5 ;;
   dnsPacketSizeRand <- CreateUniform 64 512 ;;
   for_ (GetN enterpriseClients) (fun i =>
     let clientNode := Get enterpriseClients i in
     let dnsRequestCount := u32 (20 + u32 (i * 5)) in
     for_ dnsRequestCount (fun j =>
       size <- GetValue dnsPacketSizeRand ;;
       interval <- GetValueExp dnsIntervalRand ;;
       UdpEchoClient (ClientApp Enterprise DNS) dnsServerIp dnsPort
         [("PacketSize", UintegerValue (trunc size));
          ("MaxPackets", UintegerValue 1);
          ("Interval", TimeValue interval)]
         clientNode (15.0 + inject_Z i * 0.5 + inject_Z j * 0.1)
         appStopTime)))%sched.

Definition enterpriseFtp (ftpServerIp : Z) : M unit :=
  (ftpFileSizeRand <- CreateUniform (1 * 1024 * 1024) (10 * 1024 * 1024) ;;
   ftpTransferIntervalRand <- CreateExponential 1.0 ;;
   for_ (GetN enterpriseClients) (fun i =>
     let clientNode := Get enterpriseClients i in
     let ftpTransferCount := u32 (3 + i mod 3) in
     for_ ftpTransferCount (fun j =>
       size <- GetValue ftpFileSizeRand ;;
       let fileSize := u32 (trunc size) in
       gap <- GetValueExp ftpTransferIntervalRand ;;
       let transferStartTime := 20.0 + inject_Z i * 0.5 + inject_Z j * gap in
       BulkSend (ClientApp Enterprise FTP) ftpServerIp ftpPort
         [("MaxBytes", UintegerValue fileSize)]
         clientNode transferStartTime appStopTime)))%sched.

Definition enterpriseSsh (ftpServerIp : Z) : M unit :=
  (sshSessionSizeRand <- CreateExponential (500 * 1024) ;;
   sshIntervalRand <- CreateExponential 0.2 ;;
   sshIdleTimeRand <- CreateUniform 1.0 5.0 ;;
   for_ (GetN enterpriseClients) (fun i =>
     let clientNode := Get enterpriseClients i in
     let sshSessionCount := u32 (2 + i mod 3) in
     for_ sshSessionCount (fun j =>
       size <- GetValueExp sshSessionSizeRand ;;
       let sessionSize := u32 (trunc size) in
       idle <- GetValue sshIdleTimeRand ;;
       let sessionStartTime := 25.0 + inject_Z i * 0.5 + inject_Z j * idle in
       BulkSend (ClientApp Enterprise SSH) ftpServerIp sshPort
         [("MaxBytes", UintegerValue sessionSize)]
         clientNode sessionStartTime appStopTime)))%sched.

Definition enterpriseEcho (echoServerIp : Z) : M unit :=
  (packetSizeRand <- CreateUniform 128 1500 ;;
   intervalRand <- CreateExponential 0.1 ;;
   maxPacketsRand <- CreateUniform 10 50 ;;
   for_ (GetN enterpriseClients) (fun i =>
     let clientNode := Get enterpriseClients i in
     packetSize <- GetInteger packetSizeRand ;;
     interval <- GetValueExp intervalRand ;;
     maxPackets <- GetInteger maxPacketsRand ;;
     UdpEchoClient (ClientApp Enterprise Echo) echoServerIp echoPort
       [("MaxPackets", UintegerValue maxPackets);
        ("Interval", TimeValue interval);
        ("PacketSize", UintegerValue packetSize)]
       clientNode (12.0 + inject_Z i * 0.5) appStopTime))%sched.

Definition enterpriseStreaming : M unit :=
  (streamPacketSizeRand <- CreateUniform 512 1500 ;;
   streamOnTimeRand <- CreateExponential 2.0 ;;
   streamOffTimeRand <- CreateExponential 0.5 ;;
   streamDataRateRand <- CreateUniform 1.5 8.0 ;;
   for_ (GetN enterpriseClients) (fun i =>
     let clientNode := Get enterpriseClients i in
     packetSize <- GetInteger streamPacketSizeRand ;;
     dataRate <- GetValue streamDataRateRand ;;
     onTime <- GetValueExp streamOnTimeRand ;;
     offTime <- GetValueExp streamOffTimeRand ;;
     OnOff (ClientApp Enterprise Streaming) UdpSocketFactory
       (Ipv4Address 10 3 1 1) streamPort
       [("PacketSize", UintegerValue packetSize);
        ("DataRate", DataRateValue (trunc (dataRate * 1000000)));
        ("OnTime", ConstantRandomVariable onTime);
        ("OffTime", ConstantRandomVariable offTime)]
       clientNode (100.0 + inject_Z i * 0.5) appStopTime))%sched.

(** *** Wi-Fi clients (source lines 938-1116) *)

Definition wifiWeb (webServerIp : Z) : M unit :=
  for_ (GetN wifiStaNodes) (fun i =>
    let clientNode := Get wifiStaNodes i in
    httpPacketSize <- CreateUniform 512 1500 ;;
    httpMaxBytes <- GetInteger httpPacketSize ;;
    BulkSend (ClientApp WiFi HTTP) webServerIp httpPort
      [("MaxBytes", UintegerValue httpMaxBytes)]
      clientNode (6.0 + inject_Z i * 0.75) appStopTime ;;
    httpsPacketSize <- CreateUniform 512 2000 ;;
    httpsMaxBytes <- GetInteger httpsPacketSize ;;
    BulkSend (ClientApp WiFi HTTPS) webServerIp httpsPort
      [("MaxBytes", UintegerValue httpsMaxBytes)]
      clientNode (6.5 + inject_Z i * 0.75) appStopTime)%sched.

Definition wifiEmail (emailServerIp : Z) : M unit :=
  (emailProtocolRand <- CreateUniform 0.0 2.0 ;;
   for_ (GetN wifiStaNodes) (fun i =>
     let clientNode := Get wifiStaNodes i in
     protocolChoice <- GetInteger emailProtocolRand ;;
     emailSizeRand <- CreateUniform (30 * 1024) (80 * 1024) ;;
     emailSize <- GetInteger emailSizeRand ;;
     BulkSend (ClientApp WiFi Email) emailServerIp
       (emailPortOf protocolChoice)
       [("MaxBytes", UintegerValue emailSize)]
       clientNode (10.0 + inject_Z i * 0.5) appStopTime))%sched.

Definition wifiDns (dnsServerIp : Z) : M unit :=
  for_ (GetN wifiStaNodes) (fun i =>
    let clientNode := Get wifiStaNodes i in
    packetSizeRand <- CreateUniform 50 256 ;;
    packetSize <- GetInteger packetSizeRand ;;
    UdpEchoClient (ClientApp WiFi DNS) dnsServerIp dnsPort
      [("MaxPackets", UintegerValue 10);
       ("Interval", TimeValue 0.5);
       ("PacketSize", UintegerValue packetSize)]
      clientNode (15.0 + inject_Z i * 0.2) appStopTime)%sched.

Definition wifiStreaming : M unit :=
  (streamPacketSizeRandWiFi <- CreateUniform 400 1200 ;;
   streamOnTimeRandWiFi <- CreateExponential 1.5 ;;
   streamOffTimeRandWiFi <- CreateExponential 0.7 ;;
   streamDataRateRandWiFi <- CreateUniform 1.0 4.0 ;;
   for_ (GetN wifiStaNodes) (fun i =>
     let clientNode := Get wifiStaNodes i in
     packetSize <- GetInteger streamPacketSizeRandWiFi ;;
     dataRate <- GetValue streamDataRateRandWiFi ;;
     onTime <- GetValueExp streamOnTimeRandWiFi ;;
     offTime <- GetValueExp streamOffTimeRandWiFi ;;
     OnOff (ClientApp WiFi Streaming) UdpSocketFactory
       (Ipv4Address 10 3 1 1) streamPort
       [("PacketSize", UintegerValue packetSize);
        ("DataRate", DataRateValue (trunc (dataRate * 1000000)));
        ("OnTime", ConstantRandomVariable onTime);
        ("OffTime", ConstantRandomVariable offTime)]
       clientNode (100.0 + inject_Z i * 0.3) appStopTime))%sched.

Definition wifiFtp (ftpServerIp : Z) : M unit :=
  for_ (GetN wifiStaNodes) (fun i =>
    let clientNode := Get wifiStaNodes i in
    ftpFileSizeRand <- CreateUniform (500 * 1024) (2 * 1024 * 1024) ;;
    fileSize <- GetInteger ftpFileSizeRand ;;
    BulkSend (ClientApp WiFi FTP) ftpServerIp ftpPort
      [("MaxBytes", UintegerValue fileSize)]
      clientNode (20.0 + inject_Z i * 1.0) appStopTime)%sched.

Definition wifiSsh (ftpServerIp : Z) : M unit :=
  for_ (GetN wifiStaNodes) (fun i =>
    let clientNode := Get wifiStaNodes i in
    sshSessionSizeRand <- CreateUniform (100 * 1024) (700 * 1024) ;;
    sessionSize <- GetInteger sshSessionSizeRand ;;
    BulkSend (ClientApp WiFi SSH) ftpServerIp sshPort
      [("MaxBytes", UintegerValue sessionSize)]
      clientNode (25.0 + inject_Z i * 1.2) appStopTime)%sched.

Definition wifiEcho (echoServerIp : Z) : M unit :=
  for_ (GetN wifiStaNodes) (fun i =>
    let clientNode := Get wifiStaNodes i in
    echoPacketSizeRand <- CreateUniform 128 1024 ;;
    echoPacketSize <- GetInteger echoPacketSizeRand ;;
    UdpEchoClient (ClientApp WiFi Echo) echoServerIp echoPort
      [("MaxPackets", UintegerValue 15);
       ("Interval", TimeValue 0.5);
       ("PacketSize", UintegerValue echoPacketSize)]
      clientNode (12.0 + inject_Z i * 0.5) appStopTime)%sched.

(** *** Remote clients (source lines 1122-1210) *)

Definition remoteApps (webServerIp emailServerIp dnsServerIp ftpServerIp
                       echoServerIp : Z) : M unit :=
  for_ (GetN remoteClients) (fun i =>
    let clientNode := Get remoteClients i in
    r1 <- crand ;;
    let httpFileSize := u32 (256 * 1024 + Z.rem r1 (1 * 1024 * 1024)) in
    BulkSend (ClientApp Remote HTTP) webServerIp httpPort
      [("MaxBytes", UintegerValue httpFileSize)]
      clientNode (5.0 + inject_Z (u32 (i * 10)))
      (30.0 + inject_Z (u32 (i * 20))) ;;
    r2 <- crand ;;
    let httpsFileSize := u32 (128 * 1024 + Z.rem r2 (1 * 1024 * 1024)) in
    BulkSend (ClientApp Remote HTTPS) webServerIp httpsPort
      [("MaxBytes", UintegerValue httpsFileSize)]
      clientNode (12.0 + inject_Z (u32 (i * 15))) appStopTime ;;
    randProtocol <- CreateUniform 0.0 2.0 ;;
    protocolChoice <- GetInteger randProtocol ;;
    r3 <- crand ;;
    let emailSize := u32 (20 * 1024 + Z.rem r3 (80 * 1024)) in
    r4 <- crand ;;
    BulkSend (ClientApp Remote Email) emailServerIp
      (emailPortOf protocolChoice)
      [("MaxBytes", UintegerValue emailSize)]
      clientNode (20.0 + inject_Z (u32 (i * 10)) + inject_Z (Z.rem r4 15))
      appStopTime ;;
    r5 <- crand ;;
    UdpEchoClient (ClientApp Remote DNS) dnsServerIp dnsPort
      [("MaxPackets", UintegerValue 3);
       ("Interval", TimeValue (1.5 + inject_Z (Z.rem r5 3)));
       ("PacketSize", UintegerValue 48)]
      clientNode (30.0 + inject_Z (u32 (i * 5)))
      (150.0 + inject_Z (u32 (i * 10))) ;;
    r6 <- crand ;;
    let ftpFileSize := u32 (200 * 1024 + Z.rem r6 (3 * 1024 * 1024)) in
    r7 <- crand ;;
    BulkSend (ClientApp Remote FTP) ftpServerIp ftpPort
      [("MaxBytes", UintegerValue ftpFileSize)]
      clientNode (40.0 + inject_Z (u32 (i * 8)) + inject_Z (Z.rem r7 20))
      appStopTime ;;
    r8 <- crand ;;
    let sshSessionSize := u32 (100 * 1024 + Z.rem r8 (300 * 1024)) in
    r9 <- crand ;;
    BulkSend (ClientApp Remote SSH) ftpServerIp sshPort
      [("MaxBytes", UintegerValue sshSessionSize)]
      clientNode (50.0 + inject_Z (u32 (i * 6)) + inject_Z (Z.rem r9 10))
      appStopTime ;;
    r10 <- crand ;;
    r11 <- crand ;;
    r12 <- crand ;;
    UdpEchoClient (ClientApp Remote Echo) echoServerIp echoPort
      [("MaxPackets", UintegerValue 10);
       ("Interval", TimeValue (2.0 + inject_Z (Z.rem r10 2)));
       ("PacketSize", UintegerValue (256 + Z.rem r11 512))]
      clientNode (55.0 + inject_Z (u32 (i * 4)) + inject_Z (Z.rem r12 20))
      appStopTime ;;
    r13 <- crand ;;
    r14 <- crand ;;
    OnOff (ClientApp Remote Streaming) UdpSocketFactory
      (Ipv4Address 10 3 1 1) streamPort
      (SetConstantRate 1000000 (512 + Z.rem r13 1024))
      clientNode (60.0 + inject_Z (u32 (i * 3)) + inject_Z (Z.rem r14 20))
      160.0)%sched.

(** *** Attacks (source lines 1274-1756)

    Each block is a function of the timing variables the source declares
    for it; [installAttacks] below calls it with the source's values. *)

(** [for (i = 0; i < count && i < c.GetN(); ++i)]. *)
Definition for_attackers (count : Z) (c : NodeContainer)
    (body : Z -> M unit) : M unit :=
  for_ (Z.min count (GetN c)) body.

Definition synFlood (webServerIp : Z) (attackStartTime attackStopTime : Q)
    (numClients : Z) : M unit :=
  for_attackers numClients remoteClients (fun i =>
    BulkSend (AttackApp SynFlood) webServerIp httpPort
      [("MaxBytes", UintegerValue 0)]
      (Get remoteClients i)
      (attackStartTime + inject_Z i * 0.1) attackStopTime).

Definition udpFlood (dnsServerIp : Z) (udpFloodStartTime udpFloodStopTime : Q)
    (floodClients : Z) : M unit :=
  for_attackers floodClients enterpriseClients (fun i =>
    OnOff (AttackApp UdpFlood) UdpSocketFactory dnsServerIp dnsPort
      (SetConstantRate 100000000 512)
      (Get enterpriseClients i)
      (udpFloodStartTime + inject_Z i * 0.1) udpFloodStopTime).

Definition icmpFlood (coreRouterIp : Z)
    (icmpFloodStartTime icmpFloodStopTime : Q) (icmpFloodClients : Z)
  : M unit :=
  for_attackers icmpFloodClients wifiStaNodes (fun i =>
    UdpEchoClient (AttackApp IcmpFlood) coreRouterIp 0
      [("MaxPackets", UintegerValue 1000000);
       ("Interval", TimeValue 0.001);
       ("PacketSize", UintegerValue 64)]
      (Get wifiStaNodes i)
      (icmpFloodStartTime + inject_Z i * 0.1) icmpFloodStopTime).

Definition portsToScan : list Z :=
  [21; 22; 25; 53; 80; 110; 123; 143; 179; 443; 500; 587]%Z.

Definition portScan (targetServerIp : Z) (scanStartTime scanStopTime : Q)
    (numScanClients : Z) : M unit :=
  for_attackers numScanClients wifiStaNodes (fun i =>
    for_each portsToScan (fun port =>
      BulkSend (AttackApp PortScan) targetServerIp port
        [("MaxBytes", UintegerValue 512)]
        (Get wifiStaNodes i)
        (scanStartTime + inject_Z i * 0.1 + inject_Z port * 0.01)
        scanStopTime)).

Definition fakeHttpPort : Z := 8081.

Definition fakeHttpServer (start stop : Q) : M unit :=
  PacketSink (ServerApp FakeHttpServer) TcpSocketFactory fakeHttpPort
             (Get dmzServers 1) start stop.

Definition mitm (fakeServerIp : Z) (redirectStartTime redirectStopTime : Q)
    (numMitmClients : Z) : M unit :=
  for_attackers numMitmClients enterpriseClients (fun i =>
    BulkSend (AttackApp MitM) fakeServerIp fakeHttpPort
      [("MaxBytes", UintegerValue (1024 * 1024))]
      (Get enterpriseClients i)
      (redirectStartTime + inject_Z i * 0.1) redirectStopTime).

Definition bruteForceFtp (ftpServerIp : Z)
    (bruteForceStartTime bruteForceStopTime : Q) (numAttackClients : Z)
  : M unit :=
  for_attackers numAttackClients remoteClients (fun i =>
    for_ 10 (fun attempt =>
      BulkSend (AttackApp BruteForceFtp) ftpServerIp ftpPort
        [("MaxBytes", UintegerValue 512)]
        (Get remoteClients i)
        (bruteForceStartTime + inject_Z i * 0.1 + inject_Z attempt * 0.5)
        bruteForceStopTime)).

Definition sqlPayloads : list string :=
  ["' OR '1'='1";
   "' OR 'a'='a";
   "' OR 1=1 --";
   "'; DROP TABLE users; --";
   "'; SELECT * FROM users WHERE 'a'='a";
   "' UNION SELECT NULL, NULL, NULL --"].

Definition sqlInjection (httpServerIp : Z)
    (sqlInjectionStartTime sqlInjectionStopTime : Q)
    (sqlInjectionClients : Z) : M unit :=
  for_attackers sqlInjectionClients enterpriseClients (fun i =>
    for_index sqlPayloads (fun payloadIndex payload =>
      OnOff (AttackApp SqlInjection) TcpSocketFactory httpServerIp httpPort
        [("PacketSize",
          UintegerValue (Z.of_nat (String.length payload) + 50));
         ("DataRate", StringValue "2Mbps");
         ("OnTime", StringValue "ns3::ConstantRandomVariable[Constant=0.5]");
         ("OffTime", StringValue "ns3::ConstantRandomVariable[Constant=0.5]")]
        (Get enterpriseClients i)
        (sqlInjectionStartTime + inject_Z i * 0.1
         + inject_Z payloadIndex * 0.5)
        sqlInjectionStopTime)).

Definition bruteForceSsh (sshServerIp : Z)
    (sshBruteForceStartTime sshBruteForceStopTime : Q) (sshAttackClients : Z)
  : M unit :=
  for_attackers sshAttackClients remoteClients (fun i =>
    for_ 20 (fun attempt =>
      BulkSend (AttackApp BruteForceSsh) sshServerIp sshPort
        [("MaxBytes", UintegerValue 512)]
        (Get remoteClients i)
        (sshBruteForceStartTime + inject_Z i * 0.2 + inject_Z attempt * 0.2)
        sshBruteForceStopTime)).

Definition ftpLoginFlood (ftpServerIp : Z)
    (ftpBruteForceStartTime ftpBruteForceStopTime : Q) (ftpAttackClients : Z)
  : M unit :=
  for_attackers ftpAttackClients enterpriseClients (fun i =>
    for_ 30 (fun attempt =>
      BulkSend (AttackApp FtpLoginFlood) ftpServerIp ftpPort
        [("MaxBytes", UintegerValue 1024)]
        (Get enterpriseClients i)
        (ftpBruteForceStartTime + inject_Z i * 0.1 + inject_Z attempt * 0.1)
        ftpBruteForceStopTime)).

Definition cncPort : Z := 9999.

Definition cncServer (start stop : Q) : M unit :=
  PacketSink (ServerApp CncServer) TcpSocketFactory cncPort
             (Get dmzServers 4) start stop.

Definition botComm (cncServerIp : Z) (botCommStartTime botCommStopTime : Q)
    (botClients : Z) : M unit :=
  for_attackers botClients wifiStaNodes (fun i =>
    OnOff (AttackApp BotnetCnC) TcpSocketFactory cncServerIp cncPort
      [("DataRate", DataRateValue 500000);
       ("PacketSize", UintegerValue 128);
       ("OnTime", StringValue "ns3::ConstantRandomVariable[Constant=1.0]");
       ("OffTime", StringValue "ns3::ExponentialRandomVariable[Mean=5.0]")]
      (Get wifiStaNodes i)
      (botCommStartTime + inject_Z i * 0.2) botCommStopTime).

Definition vpnPort : Z := 443.

Definition vpnFlood (vpnServerIp : Z) (vpnFloodStartTime vpnFloodStopTime : Q)
    (vpnFloodClients : Z) : M unit :=
  for_attackers vpnFloodClients remoteClients (fun i =>
    OnOff (AttackApp VpnFlood) TcpSocketFactory vpnServerIp vpnPort
      (SetConstantRate 50000000 1024)
      (Get remoteClients i)
      (vpnFloodStartTime + inject_Z i * 0.1) vpnFloodStopTime).

Definition credentialStuffing (vpnServerIp : Z)
    (credentialStuffingStartTime credentialStuffingStopTime : Q)
    (stuffingClients : Z) : M unit :=
  for_attackers stuffingClients remoteClients (fun i =>
    for_ 15 (fun attempt =>
      BulkSend (AttackApp CredentialStuffing) vpnServerIp vpnPort
        [("MaxBytes", UintegerValue 512)]
        (Get remoteClients i)
        (credentialStuffingStartTime + inject_Z i * 0.2
         + inject_Z attempt * 0.1)
        credentialStuffingStopTime)).

Definition xssPayloads : list string :=
  ["GET /search?q=<script>alert('XSS1')</script> HTTP/1.1";
   "GET /profile?name=<script>alert('XSS2')</script> HTTP/1.1";
   "GET /comments?id=1'><script>alert('XSS3')</script> HTTP/1.1";
   "GET /index.html?page=<script>alert('XSS4')</script> HTTP/1.1"].

Definition xss (httpServerIp : Z) (xssStartTime xssStopTime : Q)
    (xssClients : Z) : M unit :=
  for_attackers xssClients enterpriseClients (fun i =>
    for_index xssPayloads (fun payloadIndex payload =>
      OnOff (AttackApp XSS) TcpSocketFactory httpServerIp httpPort
        [("PacketSize",
          UintegerValue (Z.of_nat (String.length payload) + 50));
         ("DataRate", StringValue "500kbps");
         ("OnTime", StringValue "ns3::ConstantRandomVariable[Constant=0.5]");
         ("OffTime", StringValue "ns3::ConstantRandomVariable[Constant=0.5]")]
        (Get enterpriseClients i)
        (xssStartTime + inject_Z i * 0.1 + inject_Z payloadIndex * 0.2)
        xssStopTime)).

Definition arpSpoofing (targetIp : Z) (arpPoisonStartTime arpPoisonStopTime : Q)
  : M unit :=
  OnOff (AttackApp ArpSpoofing) UdpSocketFactory targetIp 80
    [("DataRate", StringValue "1Mbps");
     ("PacketSize", UintegerValue 128)]
    (Get enterpriseClients 2) arpPoisonStartTime arpPoisonStopTime.

Definition zeroDay (targetIpZeroDay : Z) (zeroDayStartTime zeroDayStopTime : Q)
  : M unit :=
  (OnOff (AttackApp ZeroDay) TcpSocketFactory targetIpZeroDay httpPort
     [("DataRate", StringValue "10Mbps");
      ("PacketSize", UintegerValue 1024)]
     (Get enterpriseClients 1) zeroDayStartTime zeroDayStopTime ;;
   OnOff (AttackApp ZeroDay) TcpSocketFactory targetIpZeroDay httpsPort
     [("DataRate", StringValue "10Mbps");
      ("PacketSize", UintegerValue 1024)]
     (Get enterpriseClients 1) zeroDayStartTime zeroDayStopTime)%sched.

Definition ddosAttackers : list Node :=
  [Get enterpriseClients 0; Get wifiStaNodes 1; Get remoteClients 2].

Definition ddos (ddosTargetIp : Z) (ddosStartTime ddosStopTime : Q) : M unit :=
  for_index ddosAttackers (fun i attackerNode =>
    OnOff (AttackApp DDoS) UdpSocketFactory ddosTargetIp 80
      (SetConstantRate 100000000 1024)
      attackerNode (ddosStartTime + inject_Z i * 0.5) ddosStopTime).

(** *** The attack section with the source's timing values *)

Definition installAttacks (ifs : Interfaces) : M unit :=
  let webServerIp := GetAddress (dmzInterfaces ifs) 0 in
  let dnsServerIp := GetAddress (dmzInterfaces ifs) 2 in
  let ftpServerIp := GetAddress (dmzInterfaces ifs) 3 in
  let coreRouterIp := node_GetAddress (ipv4 ifs) (Get coreRouters 0) 1 in
  let targetServerIp := GetAddress (dmzInterfaces ifs) 0 in
  let fakeServerIp := GetAddress (dmzInterfaces ifs) 1 in
  let httpServerIp := GetAddress (dmzInterfaces ifs) 0 in
  let sshServerIp := GetAddress (dmzInterfaces ifs) 3 in
  let cncServerIp := GetAddress (dmzInterfaces ifs) 4 in
  let vpnServerIp := GetAddress (vpnInterfaces ifs) 0 in
  let targetIp := node_GetAddress (ipv4 ifs) (Get dmzServers 0) 1 in
  let targetIpZeroDay := node_GetAddress (ipv4 ifs) (Get dmzServers 0) 1 in
  let ddosTargetIp := node_GetAddress (ipv4 ifs) (Get dmzServers 0) 1 in
  (synFlood webServerIp 60.0 100.0 3 ;;
   udpFlood dnsServerIp 100.0 125.0 3 ;;
   icmpFlood coreRouterIp 205.0 255.0 3 ;;
   portScan targetServerIp 150.0 168.0 3 ;;
   fakeHttpServer 10.0 450.0 ;;
   mitm fakeServerIp 262.0 313.0 2 ;;
   bruteForceFtp ftpServerIp 347.0 367.0 3 ;;
   sqlInjection httpServerIp 368.0 433.0 3 ;;
   bruteForceSsh sshServerIp 169.0 184.0 3 ;;
   ftpLoginFlood ftpServerIp 483.0 533.0 2 ;;
   cncServer 20.0 700.0 ;;
   botComm cncServerIp 546.0 607.0 3 ;;
   vpnFlood vpnServerIp 608.0 633.0 3 ;;
   credentialStuffing vpnServerIp 444.0 483.0 3 ;;
   xss httpServerIp 728.0 788.0 2 ;;
   arpSpoofing targetIp 321.0 346.0 ;;
   zeroDay targetIpZeroDay 933.0 983.0 ;;
   ddos ddosTargetIp 583.0 608.0)%sched.

(** *** Every application of [main], in installation order *)

Definition installClients (ifs : Interfaces) : M unit :=
  let webServerIp := GetAddress (dmzInterfaces ifs) 0 in
  let emailServerIp := GetAddress (dmzInterfaces ifs) 1 in
  let dnsServerIp := GetAddress (dmzInterfaces ifs) 2 in
  let ftpServerIp := GetAddress (dmzInterfaces ifs) 3 in
  let echoServerIp := GetAddress (dmzInterfaces ifs) 4 in
  (enterpriseWeb webServerIp ;;
   enterpriseEmail emailServerIp ;;
   enterpriseDns dnsServerIp ;;
   enterpriseFtp ftpServerIp ;;
   enterpriseSsh ftpServerIp ;;
   enterpriseEcho echoServerIp ;;
   enterpriseStreaming ;;
   wifiWeb webServerIp ;;
   wifiEmail emailServerIp ;;
   wifiDns dnsServerIp ;;
   wifiStreaming ;;
   wifiFtp ftpServerIp ;;
   wifiSsh ftpServerIp ;;
   wifiEcho echoServerIp ;;
   remoteApps webServerIp emailServerIp dnsServerIp ftpServerIp
              echoServerIp)%sched.

Definition installApplications (ifs : Interfaces) : M unit :=
  (installServers ;; installClients ifs ;; installAttacks ifs)%sched.

(** What [main] hands to the simulator: the installed applications and the
    time given to [Simulator::Stop]. *)
Record Scenario : Type := mkScenario {
  timeline : list Application;
  simulatorStop : Q
}.

(** [main]: the address plan, then the applications, then
    [Simulator::Stop(Seconds(appStopTime))].  [None] is a fatal abort while
    addresses are assigned. *)
Definition main (env : Random) : option Scenario :=
  match assignAddresses fresh_alloc with
  | None => None
  | Some (ifs, _) =>
      Some (mkScenario (run (installApplications ifs) env) appStopTime)
  end.


(* ================================================================== *)
(** ** Vocabulary of the properties *)

(** The applications of a timeline that one block installed. *)
Definition has_label (l : Provenance) (a : Application) : bool :=
  Provenance_beq (app_label a) l.

Definition labelled (l : Provenance) (tl : list Application)
  : list Application :=
  filter (has_label l) tl.

(** The elements of a vector with their indices. *)
Fixpoint indexed_from {A} (i : Z) (v : list A) : list (Z * A) :=
  match v with
  | [] => []
  | x :: rest => (i, x) :: indexed_from (i + 1) rest
  end.

Definition indexed {A} (v : list A) : list (Z * A) := indexed_from 0%Z v.

(** The indices [0 .. n-1] of a loop, and the indices crossed with a
    vector, outer index first, which is the order of the nested loops. *)
Definition indices (n : nat) : list Z := map Z.of_nat (seq 0 n).

Definition grid {A} (n : nat) (v : list A) : list (Z * A) :=
  flat_map (fun a => map (fun x => (a, x)) v) (indices n).

(** A port-scan event of the claimed shape: the probe of attacker [a] at the
    port of index [p] starts [a] tenths and [p] hundredths after the scan. *)
Definition port_scan_by_index (scanStart : Q) (e : Application)
    (c : Z * (Z * Z)) : Prop :=
  let '(a, (p, port)) := c in
  app_node e = Get wifiStaNodes a /\
  app_port e = port /\
  app_start e == scanStart + inject_Z a * 0.1 + inject_Z p * 0.01.

(** What the source schedules: attacker [a] probes [port] that many
    hundredths of a second, by port number, after its own start. *)
Definition port_scan_by_number (scanStart scanStop : Q) (e : Application)
    (c : Z * Z) : Prop :=
  let '(a, port) := c in
  app_node e = Get wifiStaNodes a /\
  app_port e = port /\
  app_start e == scanStart + inject_Z a * 0.1 + inject_Z port * 0.01 /\
  app_stop e == scanStop.

(** A payload-injection event: attacker [a] sends the payload of index [p];
    the packet is [header] bytes longer than the payload. *)
Definition payload_event (base dAttacker dPayload stop : Q) (header : Z)
    (e : Application) (c : Z * (Z * string)) : Prop :=
  let '(a, (p, payload)) := c in
  app_node e = Get enterpriseClients a /\
  attribute "PacketSize" (app_attributes e)
    = Some (UintegerValue (Z.of_nat (String.length payload) + header)) /\
  app_start e == base + inject_Z a * dAttacker + inject_Z p * dPayload /\
  app_stop e == stop.

(** An enterprise HTTP event without jitter. *)
Definition http_event (webServerIp : Z) (stop : Q) (e : Application) (i : Z)
  : Prop :=
  app_node e = Get enterpriseClients i /\
  app_address e = webServerIp /\
  app_port e = httpPort /\
  app_start e == 5.0 + inject_Z i /\
  app_stop e == stop.

(** Assumptions on the random environment.  A uniform variate lies in
    [[0, 1]] and the negated logarithm of a variate in [[0, B]]: the ns-3
    generator returns variates no smaller than 2^-32, whose negated
    logarithm is below 23. *)
Definition variates_bounded (B : Q) (env : Random) : Prop :=
  (forall s k, 0 <= RandU01 env s k <= 1) /\
  (forall s k, 0 <= neg_log env (RandU01 env s k) <= B).

(** Zero jitter of the enterprise web clients: the exponential variable
    [randInterRequestTime], the second random object [main] creates, only
    ever answers 0. *)
Definition zero_jitter (env : Random) : Prop :=
  forall k, neg_log env (RandU01 env 1%nat k) == 0.

(** Two random environments that answer alike: what a fixed seed gives. *)
Definition same_draws (env1 env2 : Random) : Prop :=
  (forall s k, RandU01 env1 s k = RandU01 env2 s k) /\
  (forall v, neg_log env1 v = neg_log env2 v) /\
  (forall k, rand env1 k = rand env2 k).

(** *** Postconditions of build steps *)

(** Every run of [c] returns a value satisfying [R] and installs only
    applications satisfying [P]. *)
Definition ensures (env : Random) (P : Application -> Prop)
    {A} (c : M A) (R : A -> Prop) : Prop :=
  forall st, R (value (c env st)) /\ Forall P (installed (c env st)).

(** Two runs, each in its own random environment, from the same
    bookkeeping: the values are related by [RA], the bookkeeping stays the
    same and the applications installed are pairwise related by [RE]. *)
Definition related (env1 env2 : Random)
    (RE : Application -> Application -> Prop)
    {A} (RA : A -> A -> Prop) (c1 c2 : M A) : Prop :=
  forall st,
    RA (value (c1 env1 st)) (value (c2 env2 st)) /\
    rng (c1 env1 st) = rng (c2 env2 st) /\
    Forall2 RE (installed (c1 env1 st)) (installed (c2 env2 st)).

(** *** Topology of an event *)

Definition is_email (a : Application) : bool :=
  match app_label a with
  | ClientApp _ Email => true
  | _ => false
  end.

(** Source, provenance, kind and target address of two events agree, and
    so does the target port unless the event is an email client's. *)
Definition same_topology (a b : Application) : Prop :=
  app_label a = app_label b /\
  app_helper a = app_helper b /\
  app_factory a = app_factory b /\
  app_node a = app_node b /\
  app_address a = app_address b /\
  (is_email a = false -> app_port a = app_port b).

(** Source, provenance and whole target, port included, agree. *)
Definition same_endpoints (a b : Application) : Prop :=
  app_label a = app_label b /\
  app_node a = app_node b /\
  app_address a = app_address b /\
  app_port a = app_port b.

(** *** Services and their windows *)

(** Server [s] is the service that client [e] aims at: [s] listens, with
    the same socket factory and on the same port, on a node that owns the
    address [e] sends to. *)
Definition serves (all : list Ipv4Interface) (s e : Application) : Prop :=
  is_server s = true /\ is_server e = false /\
  app_factory s = app_factory e /\
  app_port s = app_port e /\
  exists x, In x all /\ if_node x = app_node s /\ if_local x = app_address e.

(** Every event lies inside the active window of the service it aims at,
    which is what a truncation to the intersection would establish. *)
Definition within_target_window (all : list Ipv4Interface)
    (tl : list Application) : Prop :=
  forall s e, In s tl -> In e tl -> serves all s e ->
    app_start s <= app_start e /\ app_stop e <= app_stop s.

(** *** The streaming clients *)

Definition is_streaming (a : Application) : bool :=
  match app_label a with
  | ClientApp _ Streaming => true
  | _ => false
  end.

(** The addresses a directory binds. *)
Definition bound_addresses (ifs : Interfaces) : list Z :=
  map if_local (ipv4 ifs).

(** *** Concrete random environments *)

(** Every variate 0, every logarithm 0, [rand()] always 0. *)
Definition env_zero : Random :=
  mkRandom (fun _ _ => 0) (fun _ => 0) (fun _ => 0%N).

(** Every variate 1/10, every logarithm 23/10, [rand()] always 0. *)
Definition env_low : Random :=
  mkRandom (fun _ _ => 0.1) (fun _ => 2.3) (fun _ => 0%N).

(** Every variate 1/2, every logarithm 7/10, [rand()] counting by 7919. *)
Definition env_half : Random :=
  mkRandom (fun _ _ => 0.5) (fun _ => 0.7) (fun k => (N.of_nat k * 7919)%N).

(** The directory [main] builds, when the address plan succeeds. *)
Definition directoryAt (dmzNetwork : Z) : option Interfaces :=
  option_map fst (assignAddressesAt dmzNetwork fresh_alloc).

Definition directory : option Interfaces :=
  option_map fst (assignAddresses fresh_alloc).

(** *** Windows of the source's timing values *)

(** What the timing values of the source establish for one application: a
    server is one of the DMZ services (window [[1, 1500]]), the decoy HTTP
    server (port 8081, window [[10, 450]]) or the C&C listener (port 9999,
    window [[20, 700]]); a client runs inside [[1, 1500]], and inside the
    window of the decoy or of the listener when it is aimed at their port. *)
Definition window_ok (e : Application) : Prop :=
  if is_server e then
    (app_start e == 1 /\ app_stop e == 1500) \/
    (app_port e = fakeHttpPort /\ app_start e == 10 /\ app_stop e == 450) \/
    (app_port e = cncPort /\ app_start e == 20 /\ app_stop e == 700)
  else
    1 <= app_start e /\ app_stop e <= 1500 /\
    (app_port e = fakeHttpPort -> 10 <= app_start e /\ app_stop e <= 450) /\
    (app_port e = cncPort -> 20 <= app_start e /\ app_stop e <= 700).

(** A bot event as declared: bot [i] of the Wi-Fi stations talks to the
    listener from [start + 0.2 i] to [stop]. *)
Definition bot_event (cncServerIp : Z) (start stop : Q) (e : Application)
    (i : Z) : Prop :=
  app_node e = Get wifiStaNodes i /\
  app_address e = cncServerIp /\
  app_port e = cncPort /\
  app_start e == start + inject_Z i * 0.2 /\
  app_stop e == stop.

(** *** Runs related under a seed *)

(** Two values that are equal whenever the two runs share their seed. *)
Definition agree (seeded : Prop) {T} (x y : T) : Prop := seeded -> x = y.

(** Two events of the same topology, and equal when the seed is shared. *)
Definition same_event (seeded : Prop) (a b : Application) : Prop :=
  same_topology a b /\ agree seeded a b.

(** The directory of the source's plan, evaluated. *)
Definition plan : Interfaces :=
  Eval vm_compute in
    match directory with
    | Some ifs => ifs
    | None => mkInterfaces [] [] [] [] [] [] [] []
    end.

(* ================================================================== *)
(** ** Vocabulary of the further properties *)

(** The benign client applications and the attack applications. *)
Definition is_benign (a : Application) : bool :=
  match app_label a with
  | ClientApp _ _ => true
  | _ => false
  end.

Definition is_attack (a : Application) : bool :=
  match app_label a with
  | AttackApp _ => true
  | _ => false
  end.

(** The addresses [main] reads from the directory to aim its generators:
    the five DMZ servers, the VPN server, and the first interface of the
    core router and of the first DMZ server. *)
Definition directory_targets (ifs : Interfaces) : list Z :=
  [GetAddress (dmzInterfaces ifs) 0; GetAddress (dmzInterfaces ifs) 1;
   GetAddress (dmzInterfaces ifs) 2; GetAddress (dmzInterfaces ifs) 3;
   GetAddress (dmzInterfaces ifs) 4; GetAddress (vpnInterfaces ifs) 0;
   node_GetAddress (ipv4 ifs) (Get coreRouters 0) 1;
   node_GetAddress (ipv4 ifs) (Get dmzServers 0) 1].

(** A client application that is not aimed at the literal of the streaming
    blocks takes its target from the directory. *)
Definition resolved_through (ifs : Interfaces) (e : Application) : Prop :=
  is_server e = false -> is_streaming e = false ->
  In (app_address e) (directory_targets ifs).

(** An email client sends a bulk transfer to the email server, on the SMTP,
    IMAP or POP3 port. *)
Definition email_target (ifs : Interfaces) (e : Application) : Prop :=
  is_email e = true ->
  app_helper e = BulkSendHelper /\
  app_address e = GetAddress (dmzInterfaces ifs) 1 /\
  In (app_port e) [smtpPort; imapPort; pop3Port].

(** The node of an application exists in its container, and an attack
    generator sits on one of the first three nodes of its container. *)
Definition node_in_range (e : Application) : Prop :=
  (0 <= node_index (app_node e) < GetN (node_container (app_node e)))%Z /\
  (is_attack e = true -> (node_index (app_node e) <= 2)%Z).

(** An unsigned attribute of an application lies between two bounds. *)
Definition attribute_between (name : string) (lo hi : Z) (e : Application)
  : Prop :=
  exists n, attribute name (app_attributes e) = Some (UintegerValue n) /\
            (lo <= n <= hi)%Z.

(** The sizes the remote-client block computes from [rand()], by protocol:
    the attribute, its least and its greatest value. *)
Definition remote_size (pr : Protocol) : string * Z * Z :=
  match pr with
  | HTTP => ("MaxBytes", 256 * 1024, 256 * 1024 + 1024 * 1024 - 1)
  | HTTPS => ("MaxBytes", 128 * 1024, 128 * 1024 + 1024 * 1024 - 1)
  | Email => ("MaxBytes", 20 * 1024, 100 * 1024 - 1)
  | DNS => ("PacketSize", 48, 48)
  | FTP => ("MaxBytes", 200 * 1024, 200 * 1024 + 3 * 1024 * 1024 - 1)
  | SSH => ("MaxBytes", 100 * 1024, 400 * 1024 - 1)
  | Echo => ("PacketSize", 256, 767)
  | Streaming => ("PacketSize", 512, 1535)
  end%Z.

Definition remote_size_ok (e : Application) : Prop :=
  match app_label e with
  | ClientApp Remote pr =>
      let '(name, lo, hi) := remote_size pr in attribute_between name lo hi e
  | _ => True
  end.

(** Uniform variates of a generator that never answers 1. *)
Definition variates_unit (env : Random) : Prop :=
  forall s k, 0 <= RandU01 env s k < 1.

(** The sizes the enterprise and Wi-Fi blocks draw from a uniform variable,
    by population and protocol: the attribute and the [Min] and [Max] of the
    variable.  The enterprise SSH size is drawn from an exponential variable
    and has no such range. *)
Definition uniform_size (p : Population) (pr : Protocol)
  : option (string * Z * Z) :=
  match p, pr with
  | Enterprise, HTTP => Some ("PacketSize", 512, 10 * 1024)
  | Enterprise, HTTPS => Some ("PacketSize", 512, 10 * 1024)
  | Enterprise, Email => Some ("MaxBytes", 50 * 1024, 150 * 1024)
  | Enterprise, DNS => Some ("PacketSize", 64, 512)
  | Enterprise, FTP => Some ("MaxBytes", 1 * 1024 * 1024, 10 * 1024 * 1024)
  | Enterprise, SSH => None
  | Enterprise, Echo => Some ("PacketSize", 128, 1500)
  | Enterprise, Streaming => Some ("PacketSize", 512, 1500)
  | WiFi, HTTP => Some ("MaxBytes", 512, 1500)
  | WiFi, HTTPS => Some ("MaxBytes", 512, 2000)
  | WiFi, Email => Some ("MaxBytes", 30 * 1024, 80 * 1024)
  | WiFi, DNS => Some ("PacketSize", 50, 256)
  | WiFi, FTP => Some ("MaxBytes", 500 * 1024, 2 * 1024 * 1024)
  | WiFi, SSH => Some ("MaxBytes", 100 * 1024, 700 * 1024)
  | WiFi, Echo => Some ("PacketSize", 128, 1024)
  | WiFi, Streaming => Some ("PacketSize", 400, 1200)
  | Remote, _ => None
  end%Z.

Definition uniform_size_ok (e : Application) : Prop :=
  match app_label e with
  | ClientApp p pr =>
      match uniform_size p pr with
      | Some (name, lo, hi) => attribute_between name lo hi e
      | None => True
      end
  | _ => True
  end.


(** The numbers of applications of a timeline, by kind. *)
Definition count (f : Application -> bool) (tl : list Application) : nat :=
  List.length (filter f tl).

Definition of_population (p : Population) (a : Application) : bool :=
  match app_label a with
  | ClientApp q _ => Population_beq p q
  | _ => false
  end.

(** The window the source declares for each kind of attack: its start and
    stop variables. *)
Definition declared_window (k : AttackKind) : Q * Q :=
  match k with
  | SynFlood => (60.0, 100.0)
  | UdpFlood => (100.0, 125.0)
  | IcmpFlood => (205.0, 255.0)
  | PortScan => (150.0, 168.0)
  | MitM => (262.0, 313.0)
  | BruteForceFtp => (347.0, 367.0)
  | SqlInjection => (368.0, 433.0)
  | BruteForceSsh => (169.0, 184.0)
  | FtpLoginFlood => (483.0, 533.0)
  | BotnetCnC => (546.0, 607.0)
  | VpnFlood => (608.0, 633.0)
  | CredentialStuffing => (444.0, 483.0)
  | XSS => (728.0, 788.0)
  | ArpSpoofing => (321.0, 346.0)
  | ZeroDay => (933.0, 983.0)
  | DDoS => (583.0, 608.0)
  end.

(** An attack application runs inside the declared window of its kind and
    up to its very end. *)
Definition in_declared_window (e : Application) : Prop :=
  match app_label e with
  | AttackApp k =>
      fst (declared_window k) <= app_start e /\
      app_start e <= app_stop e /\
      app_stop e == snd (declared_window k)
  | _ => True
  end.

(** The two kinds of attack whose declared windows overlap. *)
Definition concurrent (ka kb : AttackKind) : Prop :=
  (ka = BotnetCnC /\ kb = DDoS) \/ (ka = DDoS /\ kb = BotnetCnC).

(** Two applications one of which has stopped when the other starts, unless
    they are attacks of the same kind or of the two concurrent kinds.
    Applications that are not attacks are not compared. *)
Definition in_sequence (a b : Application) : Prop :=
  match app_label a, app_label b with
  | AttackApp ka, AttackApp kb =>
      ka = kb \/ concurrent ka kb \/
      app_stop a <= app_start b \/ app_stop b <= app_start a
  | _, _ => True
  end.

(** [s] listens where [e] sends, decided. *)
Definition servesb (all : list Ipv4Interface) (s e : Application) : bool :=
  is_server s && negb (is_server e) &&
  SocketFactory_beq (app_factory s) (app_factory e) &&
  (app_port s =? app_port e)%Z &&
  existsb (fun x => Node_eqb (if_node x) (app_node s) &&
                    (if_local x =? app_address e)%Z) all.

(** Some application of the timeline listens where [e] sends. *)
Definition served (all : list Ipv4Interface) (tl : list Application)
    (e : Application) : bool :=
  existsb (fun s => servesb all s e) tl.

(** The generators whose traffic the source aims at a listener it installs:
    every benign client, and the attacks but for the ICMP flood, the VPN
    flood, the credential stuffing, the ARP spoofing and the DDoS; a probe
    of the port scan only on the HTTP and HTTPS ports. *)
Definition aimed_at_listener (e : Application) : bool :=
  match app_label e with
  | ServerApp _ => false
  | ClientApp _ _ => true
  | AttackApp IcmpFlood | AttackApp VpnFlood | AttackApp CredentialStuffing
  | AttackApp ArpSpoofing | AttackApp DDoS => false
  | AttackApp PortScan =>
      (app_port e =? httpPort)%Z || (app_port e =? httpsPort)%Z
  | AttackApp _ => true
  end.

(** The listening end of a server application. *)
Definition listening_end (s : Application) : Node * Z :=
  (app_node s, app_port s).

(* ================================================================== *)
(** * Properties of the address plan *)

Local Close Scope Q_scope.
Local Open Scope Z_scope.

Lemma directory_plan : directory = Some plan.
Proof. vm_compute. reflexivity. Qed.

Lemma main_plan (env : Random) :
  main env = Some (mkScenario (run (installApplications plan) env) appStopTime).
Proof.
  pose proof directory_plan as H.
  unfold main, directory in *.
  destruct (assignAddresses fresh_alloc) as [[ifs s]|]; simpl in H.
  - injection H as ->. reflexivity.
  - discriminate.
Qed.

(** A subnet appears among the subnets of a list as soon as one of the
    interfaces of the list lies in it. *)
Lemma subnet_eqb_eq (s t : Z * Z) : subnet_eqb s t = true <-> s = t.
Proof.
  destruct s as [a b], t as [c d]. unfold subnet_eqb. simpl.
  rewrite andb_true_iff, !Z.eqb_eq. split.
  - intros [-> ->]. reflexivity.
  - intros H. injection H as -> ->. split; reflexivity.
Qed.

Lemma subnets_complete (l : list Ipv4Interface) (x : Ipv4Interface) :
  In x l -> In (subnet_of x) (subnets l).
Proof.
  induction l as [|y l IH]; simpl; [tauto|].
  intros [->|Hx]; [left; reflexivity|].
  destruct (subnet_eqb (subnet_of x) (subnet_of y)) eqn:E.
  - left. symmetry. apply subnet_eqb_eq. exact E.
  - right. apply filter_In. split; [apply IH; exact Hx|].
    rewrite E. reflexivity.
Qed.

Lemma ranges_disjointb_sound (s t : Z * Z) :
  ranges_disjointb s t = true -> ~ ranges_intersect s t.
Proof.
  unfold ranges_disjointb, ranges_intersect.
  rewrite orb_true_iff, !Z.ltb_lt.
  intros H [a [Hs Ht]]. lia.
Qed.

Lemma forallb_Forall {A} (f : A -> bool) (P : A -> Prop) (l : list A) :
  (forall x, f x = true -> P x) -> forallb f l = true -> Forall P l.
Proof.
  intros Hf H. apply Forall_forall. intros x Hx. apply Hf.
  rewrite forallb_forall in H. exact (H x Hx).
Qed.

(** C7.  The two core-router links are numbered 10.1.0.0/30 and then
    10.1.0.4/30, in that order: the first link gets 10.1.0.1 and 10.1.0.2,
    [NewNetwork] leaves the cursor on 10.1.0.4, and the second link gets
    10.1.0.5 and 10.1.0.6.  The plan is a function of nothing, so every run
    yields the same two blocks. *)
Theorem core_links_allocation :
  (exists s1,
      assignFirstCoreLink fresh_alloc = Some (tt, s1) /\
      map if_local (allocated s1)
        = [Ipv4Address 10 1 0 1; Ipv4Address 10 1 0 2] /\
      m_mask (helper s1) = mask30 /\
      current_network s1 = Ipv4Address 10 1 0 4) /\
  (exists s2,
      assignCoreLinks fresh_alloc = Some (tt, s2) /\
      map if_local (allocated s2)
        = [Ipv4Address 10 1 0 1; Ipv4Address 10 1 0 2;
           Ipv4Address 10 1 0 5; Ipv4Address 10 1 0 6] /\
      subnets (allocated s2)
        = [(Ipv4Address 10 1 0 0, mask30); (Ipv4Address 10 1 0 4, mask30)]).
Proof.
  split.
  - eexists. split; [vm_compute; reflexivity|].
    repeat split; reflexivity.
  - eexists. split; [vm_compute; reflexivity|].
    split; reflexivity.
Qed.

(** C5.  The address plan succeeds and allocates eighteen subnets: the
    three /30 links of the core, five /24 segments and one /30 per remote
    client.  Every interface lies in one of them, and any two of them that
    differ have no address in common. *)
Theorem subnets_disjoint :
  exists ifs,
    directory = Some ifs /\
    List.length (subnets (ipv4 ifs)) = 18%nat /\
    Forall (fun x => In (subnet_of x) (subnets (ipv4 ifs))) (ipv4 ifs) /\
    Forall (fun s =>
      Forall (fun t => s = t \/ ~ ranges_intersect s t)
             (subnets (ipv4 ifs)))
      (subnets (ipv4 ifs)).
Proof.
  exists plan. split; [exact directory_plan|].
  split; [reflexivity|]. split.
  - apply Forall_forall. intros x Hx. apply subnets_complete. exact Hx.
  - apply forallb_Forall with
      (f := fun s => forallb (fun t => subnet_eqb s t || ranges_disjointb s t)
                             (subnets (ipv4 plan))).
    + intros s Hs.
      apply forallb_Forall with
        (f := fun t => subnet_eqb s t || ranges_disjointb s t);
        [|exact Hs].
      intros t Ht. apply orb_true_iff in Ht. destruct Ht as [Ht|Ht].
      * left. apply subnet_eqb_eq. exact Ht.
      * right. apply ranges_disjointb_sound. exact Ht.
    + vm_compute. reflexivity.
Qed.

(* ================================================================== *)
(** * The attack blocks that draw nothing *)

Local Open Scope Q_scope.

(** The deterministic blocks install the same applications whatever the
    random environment answers: evaluating [main] symbolically in [env]
    leaves no trace of it in their events. *)
Lemma port_scan_fixed (env : Random) :
  labelled (AttackApp PortScan) (run (installApplications plan) env)
  = labelled (AttackApp PortScan) (run (installApplications plan) env_zero).
Proof. lazy. reflexivity. Qed.

Lemma sql_injection_fixed (env : Random) :
  labelled (AttackApp SqlInjection) (run (installApplications plan) env)
  = labelled (AttackApp SqlInjection) (run (installApplications plan) env_zero).
Proof. lazy. reflexivity. Qed.

Lemma xss_fixed (env : Random) :
  labelled (AttackApp XSS) (run (installApplications plan) env)
  = labelled (AttackApp XSS) (run (installApplications plan) env_zero).
Proof. lazy. reflexivity. Qed.

(** Closes a [Forall2] between two evaluated lists whose pointwise facts
    are decided by computation. *)
Ltac forall2_by_computation :=
  repeat (apply Forall2_cons; [repeat split; reflexivity|]);
  apply Forall2_nil.

(** C2 as the source implements it.  The port scan installs exactly 36
    applications, one per pair of the three attackers and the twelve ports,
    attacker first; the probe of attacker [a] at port number [port] starts
    at [150 + a * 0.1 + port * 0.01], the stagger being taken from the port
    number, and stops at 168. *)
Theorem port_scan_schedule (env : Random) :
  exists s,
    main env = Some s /\
    List.length (labelled (AttackApp PortScan) (timeline s)) = 36%nat /\
    Forall2 (port_scan_by_number 150.0 168.0)
            (labelled (AttackApp PortScan) (timeline s))
            (grid 3 portsToScan).
Proof.
  eexists. split; [apply main_plan|]. simpl timeline.
  rewrite port_scan_fixed. split; [vm_compute; reflexivity|].
  vm_compute labelled. vm_compute grid.
  forall2_by_computation.
Qed.

(** C2 as claimed fails: were the stagger taken from the port index, the
    first probe of the first attacker, at port 21 of index 0, would start at
    150.0; the source starts it at 150.21. *)
Lemma port_scan_not_by_index :
  ~ (exists s,
       main env_zero = Some s /\
       Forall2 (port_scan_by_index 150.0)
               (labelled (AttackApp PortScan) (timeline s))
               (grid 3 (indexed portsToScan))).
Proof.
  intros [s [Hs H]]. rewrite main_plan in Hs. injection Hs as <-.
  simpl timeline in H.
  vm_compute labelled in H. vm_compute grid in H.
  apply Forall2_cons_iff in H. destruct H as [[_ [_ Hstart]] _].
  vm_compute in Hstart. discriminate Hstart.
Qed.

(** C9.  The SQL-injection block installs one application per pair of its
    three attackers and six payloads, the XSS block one per pair of its two
    attackers and four payloads, attacker first.  The packet size is the
    length of the payload plus 50, and attacker [a] sends the payload of
    index [p] at [368 + a * 0.1 + p * 0.5] (SQL, until 433) and at
    [728 + a * 0.1 + p * 0.2] (XSS, until 788). *)
Theorem payload_injection_schedule (env : Random) :
  exists s,
    main env = Some s /\
    Forall2 (payload_event 368.0 0.1 0.5 433.0 50)
            (labelled (AttackApp SqlInjection) (timeline s))
            (grid 3 (indexed sqlPayloads)) /\
    Forall2 (payload_event 728.0 0.1 0.2 788.0 50)
            (labelled (AttackApp XSS) (timeline s))
            (grid 2 (indexed xssPayloads)).
Proof.
  eexists. split; [apply main_plan|]. simpl timeline.
  rewrite sql_injection_fixed, xss_fixed. split.
  - vm_compute labelled. vm_compute grid. forall2_by_computation.
  - vm_compute labelled. vm_compute grid. forall2_by_computation.
Qed.

(* ================================================================== *)
(** * The enterprise web clients *)

(** The HTTP events of [main], with the variates they are built from: the
    client of index [i] takes draw [2 i] of both shared random objects, the
    HTTPS client of the same node the draw after it. *)
Lemma enterprise_http_events (env : Random) :
  labelled (ClientApp Enterprise HTTP) (run (installApplications plan) env)
  = map (fun i =>
      mkApp (ClientApp Enterprise HTTP) OnOffHelper TcpSocketFactory
        (Ipv4Address 10 3 1 1) 80
        [("OnTime", StringValue "ns3::ConstantRandomVariable[Constant=0.2]");
         ("OffTime", StringValue "ns3::ExponentialRandomVariable[Mean=1.5]");
         ("DataRate", StringValue "1Mbps");
         ("PacketSize",
          UintegerValue
            (trunc (512 + RandU01 env 0 (2 * i) * (10 * 1024 - 512))))]
        (Get enterpriseClients (Z.of_nat i))
        (5.0 + inject_Z (Z.of_nat i)
         + 0.5 * neg_log env (RandU01 env 1 (2 * i)))
        1500.0)
      (seq 0 10).
Proof.
  lazy -[Qplus Qmult Qminus inject_Z trunc neg_log RandU01].
  reflexivity.
Qed.

Lemma Forall2_map_both {A B C} (R : B -> C -> Prop) (f : A -> B) (g : A -> C)
    (l : list A) :
  (forall x, In x l -> R (f x) (g x)) -> Forall2 R (map f l) (map g l).
Proof.
  induction l as [|x l IH]; intros H; simpl; [apply Forall2_nil|].
  apply Forall2_cons.
  - apply H. left. reflexivity.
  - apply IH. intros y Hy. apply H. right. exact Hy.
Qed.

(** C8.  With the ten enterprise clients and the HTTP server of the DMZ,
    and with a jitter that is always zero, [main] installs exactly ten
    enterprise HTTP applications, one per client in client order; the one of
    client [i] is aimed at port 80 of the web server, starts at [5 + i] and
    stops at the global stop time, at which the simulator stops too. *)
Theorem enterprise_http_schedule (env : Random) :
  zero_jitter env ->
  exists ifs s,
    directory = Some ifs /\
    main env = Some s /\
    simulatorStop s = appStopTime /\
    Forall2 (http_event (GetAddress (dmzInterfaces ifs) 0) (simulatorStop s))
            (labelled (ClientApp Enterprise HTTP) (timeline s))
            (indices 10).
Proof.
  intros Hz. exists plan. eexists.
  split; [exact directory_plan|]. split; [apply main_plan|].
  split; [reflexivity|]. simpl timeline. simpl simulatorStop.
  rewrite enterprise_http_events.
  unfold indices. apply Forall2_map_both. intros i _.
  unfold http_event. simpl. repeat split; try reflexivity.
  rewrite (Hz (2 * i)%nat). ring.
Qed.

(** The assumption of C8 holds of the environment whose variates and
    logarithms are all zero, where the ten starts are 5, 6, ..., 14. *)
Lemma enterprise_http_schedule_witness :
  zero_jitter env_zero /\
  exists ifs s,
    directory = Some ifs /\
    main env_zero = Some s /\
    simulatorStop s = appStopTime /\
    Forall2 (http_event (GetAddress (dmzInterfaces ifs) 0) (simulatorStop s))
            (labelled (ClientApp Enterprise HTTP) (timeline s))
            (indices 10).
Proof.
  assert (H : zero_jitter env_zero) by (intros k; reflexivity).
  split; [exact H|]. exact (enterprise_http_schedule env_zero H).
Defined.

(* ================================================================== *)
(** * Postconditions of build steps *)

Section Postconditions.
Variable env : Random.
Variable P : Application -> Prop.
Variables U E : Q -> Prop.
Hypothesis HU : forall s k, U (RandU01 env s k).
Hypothesis HE : forall s k, E (neg_log env (RandU01 env s k)).

Lemma ensures_ret {A} (a : A) (R : A -> Prop) :
  R a -> ensures env P (ret a) R.
Proof. intros H st. split; [exact H|apply Forall_nil]. Qed.

Lemma ensures_bind {A B} (c : M A) (k : A -> M B)
    (R1 : A -> Prop) (R2 : B -> Prop) :
  ensures env P c R1 ->
  (forall a, R1 a -> ensures env P (k a) R2) ->
  ensures env P (bind c k) R2.
Proof.
  intros Hc Hk st. destruct (Hc st) as [Ha Hl].
  destruct (Hk _ Ha (rng (c env st))) as [Hb Hl'].
  unfold bind. simpl. split; [exact Hb|].
  apply Forall_app. split; assumption.
Qed.

Lemma ensures_Install (a : Application) :
  P a -> ensures env P (Install a) (fun _ => True).
Proof.
  intros H st. split; [exact I|].
  apply Forall_cons; [exact H|apply Forall_nil].
Qed.

Lemma ensures_CreateUniform (min max : Q) :
  ensures env P (CreateUniform min max)
          (fun x => u_min x = min /\ u_max x = max).
Proof. intros st. split; [split; reflexivity|apply Forall_nil]. Qed.

Lemma ensures_CreateExponential (mean : Q) :
  ensures env P (CreateExponential mean) (fun x => e_mean x = mean).
Proof. intros st. split; [reflexivity|apply Forall_nil]. Qed.

Lemma ensures_GetValue (x : UniformRandomVariable) :
  ensures env P (GetValue x)
          (fun v => exists u, U u /\ v = u_min x + u * (u_max x - u_min x)).
Proof.
  intros st. split; [|apply Forall_nil].
  eexists. split; [apply HU|reflexivity].
Qed.

Lemma ensures_GetInteger (x : UniformRandomVariable) :
  ensures env P (GetInteger x)
          (fun n => exists u, U u /\
             n = u32 (trunc (u_min x + u * (u_max x + 1 - u_min x)))).
Proof.
  intros st. split; [|apply Forall_nil].
  eexists. split; [apply HU|reflexivity].
Qed.

Lemma ensures_GetValueExp (x : ExponentialRandomVariable) :
  ensures env P (GetValueExp x)
          (fun v => exists e, E e /\ v = e_mean x * e).
Proof.
  intros st. split; [|apply Forall_nil].
  eexists. split; [apply HE|reflexivity].
Qed.

Lemma ensures_crand : ensures env P crand (fun r => (0 <= r)%Z).
Proof. intros st. split; [apply N2Z.is_nonneg|apply Forall_nil]. Qed.

Lemma ensures_for_from (n : nat) (i0 : Z) (body : Z -> M unit) :
  (forall i, (i0 <= i < i0 + Z.of_nat n)%Z ->
             ensures env P (body i) (fun _ => True)) ->
  ensures env P (for_from n i0 body) (fun _ => True).
Proof.
  revert i0. induction n as [|n IH]; intros i0 H.
  - apply ensures_ret. exact I.
  - simpl for_from. eapply ensures_bind.
    + apply H. lia.
    + intros _ _. apply IH. intros i Hi. apply H. lia.
Qed.

Lemma ensures_for (n : Z) (body : Z -> M unit) :
  (forall i, (0 <= i < n)%Z -> ensures env P (body i) (fun _ => True)) ->
  ensures env P (for_ n body) (fun _ => True).
Proof.
  intros H. apply ensures_for_from. intros i Hi. apply H. lia.
Qed.

Lemma ensures_for_attackers (count : Z) (c : NodeContainer)
    (body : Z -> M unit) :
  (forall i, (0 <= i < count)%Z -> (i < GetN c)%Z ->
             ensures env P (body i) (fun _ => True)) ->
  ensures env P (for_attackers count c body) (fun _ => True).
Proof.
  intros H. apply ensures_for. intros i Hi. apply H; lia.
Qed.

Lemma ensures_for_each {A} (v : list A) (body : A -> M unit) :
  (forall x, In x v -> ensures env P (body x) (fun _ => True)) ->
  ensures env P (for_each v body) (fun _ => True).
Proof.
  induction v as [|x v IH]; intros H.
  - apply ensures_ret. exact I.
  - simpl for_each. eapply ensures_bind.
    + apply H. left. reflexivity.
    + intros _ _. apply IH. intros y Hy. apply H. right. exact Hy.
Qed.

Lemma ensures_for_index_from {A} (v : list A) (i0 : Z)
    (body : Z -> A -> M unit) :
  (forall i x, (i0 <= i < i0 + Z.of_nat (List.length v))%Z -> In x v ->
               ensures env P (body i x) (fun _ => True)) ->
  ensures env P (for_index_from v i0 body) (fun _ => True).
Proof.
  revert i0. induction v as [|x v IH]; intros i0 H.
  - apply ensures_ret. exact I.
  - simpl for_index_from. eapply ensures_bind.
    + apply H; [simpl List.length; lia|left; reflexivity].
    + intros _ _. apply IH. intros i y Hi Hy.
      apply H; [simpl List.length; lia|right; exact Hy].
Qed.

Lemma ensures_for_index {A} (v : list A) (body : Z -> A -> M unit) :
  (forall i x, (0 <= i < Z.of_nat (List.length v))%Z -> In x v ->
               ensures env P (body i x) (fun _ => True)) ->
  ensures env P (for_index v body) (fun _ => True).
Proof.
  intros H. apply ensures_for_index_from. intros i x Hi Hx.
  apply H; [lia|exact Hx].
Qed.

Lemma ensures_run (c : M unit) :
  ensures env P c (fun _ => True) -> Forall P (run c env).
Proof. intros H. exact (proj2 (H rng0)). Qed.
End Postconditions.

(** Walks a build step down to its [Install]s, leaving one goal per
    installed application, with the loop bounds and the facts about the
    draws in context. *)
Ltac hoare_step U E HU HE :=
  lazymatch goal with
  | |- ensures _ _ (bind _ _) _ =>
      eapply ensures_bind;
      [|let a := fresh "a" in let H := fresh "H" in
        intros a H; cbv beta in H; try clear a H]
  | |- ensures _ _ (Install _) _ => apply ensures_Install
  | |- ensures _ _ (for_ _ _) _ => apply ensures_for; intros ? ?
  | |- ensures _ _ (for_attackers _ _ _) _ =>
      apply ensures_for_attackers; intros ? ? ?
  | |- ensures _ _ (for_each _ _) _ => apply ensures_for_each; intros ? ?
  | |- ensures _ _ (for_index _ _) _ =>
      apply ensures_for_index; intros ? ? ? ?
  | |- ensures _ _ (CreateUniform _ _) _ => apply ensures_CreateUniform
  | |- ensures _ _ (CreateExponential _) _ => apply ensures_CreateExponential
  | |- ensures _ _ (GetValue _) _ => apply (ensures_GetValue _ _ U HU)
  | |- ensures _ _ (GetInteger _) _ => apply (ensures_GetInteger _ _ U HU)
  | |- ensures _ _ (GetValueExp _) _ => apply (ensures_GetValueExp _ _ E HE)
  | |- ensures _ _ crand _ => apply ensures_crand
  end.

Ltac hoare U E HU HE := repeat hoare_step U E HU HE.

Ltac unfold_blocks :=
  unfold installApplications, installServers, installClients, installAttacks,
    enterpriseWeb, enterpriseEmail, enterpriseDns, enterpriseFtp,
    enterpriseSsh, enterpriseEcho, enterpriseStreaming,
    wifiWeb, wifiEmail, wifiDns, wifiStreaming, wifiFtp, wifiSsh, wifiEcho,
    remoteApps,
    synFlood, udpFlood, icmpFlood, portScan, fakeHttpServer, mitm,
    bruteForceFtp, sqlInjection, bruteForceSsh, ftpLoginFlood, cncServer,
    botComm, vpnFlood, credentialStuffing, xss, arpSpoofing, zeroDay, ddos,
    PacketSink, UdpEchoServer, OnOff, BulkSend, UdpEchoClient.

Lemma u32_small (x : Z) : (0 <= x < 2 ^ 32)%Z -> u32 x = x.
Proof. intros H. unfold u32. apply Z.mod_small. exact H. Qed.


(** Brings the facts about loop indices, remainders and draws into the
    rationals and closes a goal of linear (or bilinear) arithmetic. *)
Ltac u32_simpl :=
  repeat match goal with
  | |- context [u32 ?x] => rewrite (u32_small x) by lia
  | H : context [u32 ?x] |- _ => rewrite (u32_small x) in H by lia
  end.

Ltac draw_facts :=
  cbv beta in *;
  repeat match goal with
  | H : exists _, _ /\ _ |- _ =>
      let u := fresh "u" in let Hu := fresh "Hu" in let Hv := fresh "Hv" in
      destruct H as [u [Hu Hv]]
  | H : u_min ?x = _ /\ u_max ?x = _ |- _ =>
      let H1 := fresh in let H2 := fresh in
      destruct H as [H1 H2]; rewrite ?H1, ?H2 in *; clear H1 H2
  | H : e_mean ?x = _ |- _ => rewrite ?H in *; clear H
  end;
  subst.

Lemma portsToScan_bounds (port : Z) :
  In port portsToScan -> (21 <= port <= 587)%Z.
Proof. unfold portsToScan. simpl. intuition lia. Qed.

Ltac remainder_facts :=
  repeat match goal with
  | H : context [Z.of_nat (List.length ?l)] |- _ =>
      let n := eval vm_compute in (Z.of_nat (List.length l)) in
      change (Z.of_nat (List.length l)) with n in H
  | H : In ?x portsToScan |- _ => apply portsToScan_bounds in H
  | |- context [(?a mod 3)%Z] =>
      lazymatch goal with
      | _ : (0 <= a mod 3 < 3)%Z |- _ => fail
      | _ => pose proof (Z.mod_pos_bound a 3 eq_refl)
      end
  | H : context [(?a mod 3)%Z] |- _ =>
      lazymatch goal with
      | _ : (0 <= a mod 3 < 3)%Z |- _ => fail
      | _ => pose proof (Z.mod_pos_bound a 3 eq_refl)
      end
  | H : (0 <= ?r)%Z |- context [Z.rem ?r ?m] =>
      lazymatch goal with
      | _ : (0 <= Z.rem r m < m)%Z |- _ => fail
      | _ => pose proof (Z.rem_bound_pos r m H eq_refl)
      end
  end.

Ltac to_rationals :=
  repeat match goal with
  | H : (_ <= _ < _)%Z |- _ => destruct H
  | H : (_ <= _ <= _)%Z |- _ => destruct H
  end;
  repeat match goal with
  | H : (_ <= _)%Z |- _ => rewrite Zle_Qle in H
  | H : (_ < _)%Z |- _ => rewrite Zlt_Qlt in H
  end;
  rewrite ?inject_Z_plus, ?inject_Z_mult in *;
  unfold inject_Z in *.

Ltac time_arith :=
  simpl GetN in *; draw_facts; remainder_facts; u32_simpl; to_rationals;
  unfold appStartTime, appStopTime in *;
  first [lra | nra].

(** Every [Stop] of the schedule is at most 1500 seconds, whatever the
    directory and the random environment. *)
Lemma stops_bounded (env : Random) (ifs : Interfaces) :
  ensures env (fun e => app_stop e <= 1500) (installApplications ifs)
          (fun _ => True).
Proof.
  unfold_blocks.
  hoare (fun _ : Q => True) (fun _ : Q => True)
        (fun _ _ : nat => I) (fun _ _ : nat => I).
  all: cbn [app_stop]; time_arith.
Qed.

(** C10.  Every application [main] installs, servers, benign clients and
    attack generators alike, is given a stop time of at most 1500 seconds,
    and 1500 seconds is the time handed to [Simulator::Stop]. *)
Theorem stops_within_horizon (env : Random) :
  exists s,
    main env = Some s /\
    simulatorStop s == 1500 /\
    Forall (fun e => app_stop e <= simulatorStop s) (timeline s).
Proof.
  eexists. split; [apply main_plan|]. simpl.
  split; [reflexivity|].
  pose proof (ensures_run _ _ _ (stops_bounded env plan)) as H.
  eapply Forall_impl; [|exact H].
  intros e He. simpl in He. unfold appStopTime. lra.
Qed.

(** No application starts after it stops, for every directory, as long as
    the variates are those of a generator: uniform variates in [[0, 1]]
    and negated logarithms between 0 and 49. *)
Lemma starts_before_stops (env : Random) (ifs : Interfaces) :
  variates_bounded 49 env ->
  ensures env (fun e => app_start e <= app_stop e) (installApplications ifs)
          (fun _ => True).
Proof.
  intros [HU HE]. unfold_blocks.
  hoare (fun u : Q => 0 <= u <= 1) (fun e : Q => 0 <= e <= 49) HU HE.
  all: cbn [app_start app_stop]; time_arith.
Qed.

(** C4.  Every application of the build, benign or attack, for every
    client index, repeat index and attack parameter, starts no later than
    it stops.  The random variates are those of the ns-3 generator,
    uniform in [[0, 1]] with a negated logarithm of at most 49. *)
Theorem start_before_stop (env : Random) :
  variates_bounded 49 env ->
  exists s,
    main env = Some s /\
    Forall (fun e => app_start e <= app_stop e) (timeline s).
Proof.
  intros H. eexists. split; [apply main_plan|]. simpl.
  apply ensures_run. apply starts_before_stops. exact H.
Qed.

(** The assumption of C4 holds of the environment whose variates are all
    1/2 and whose logarithms are all 7/10. *)
Lemma start_before_stop_witness :
  variates_bounded 49 env_half /\
  exists s,
    main env_half = Some s /\
    Forall (fun e => app_start e <= app_stop e) (timeline s).
Proof.
  assert (H : variates_bounded 49 env_half).
  { split; intros s k; simpl; split; unfold Qle; simpl; lia. }
  split; [exact H|]. exact (start_before_stop env_half H).
Defined.

(* ================================================================== *)
(** * Events and the windows of their services *)

Ltac port_absurd Hp :=
  exfalso;
  unfold emailPortOf, smtpPort, imapPort, pop3Port, httpPort, httpsPort,
    dnsPort, ftpPort, sshPort, echoPort, streamPort, vpnPort, fakeHttpPort,
    cncPort in Hp;
  repeat match type of Hp with
         | context [if ?c then _ else _] => destruct c
         end;
  first [ discriminate Hp
        | match goal with
          | H : In _ portsToScan |- _ => apply portsToScan_bounds in H; lia
          end ].

Ltac window_goal :=
  unfold window_ok;
  cbn [is_server app_helper app_start app_stop app_port];
  first
    [ left; split; unfold appStartTime, appStopTime; lra
    | right; left; split; [reflexivity|split; lra]
    | right; right; split; [reflexivity|split; lra]
    | split; [time_arith|];
      split; [time_arith|];
      split;
      (let Hp := fresh "Hp" in
       intros Hp; first [port_absurd Hp | split; time_arith]) ].

(** The timing values of the source keep every application inside the
    windows described by [window_ok]. *)
Lemma schedule_windows (env : Random) (ifs : Interfaces) (B : Q) :
  variates_bounded B env ->
  ensures env window_ok (installApplications ifs) (fun _ => True).
Proof.
  intros [HU HE]. unfold_blocks.
  hoare (fun u : Q => 0 <= u <= 1) (fun e : Q => 0 <= e <= B) HU HE.
  all: window_goal.
Qed.

Lemma window_ok_within (all : list Ipv4Interface) (tl : list Application) :
  Forall window_ok tl -> within_target_window all tl.
Proof.
  intros H s e Hs He [Hsrv [Hcli [_ [Hport _]]]].
  rewrite Forall_forall in H.
  pose proof (H s Hs) as Ws. pose proof (H e He) as We.
  unfold window_ok in Ws, We. rewrite Hsrv in Ws. rewrite Hcli in We.
  destruct We as [We1 [We2 [Wf Wc]]].
  destruct Ws as [[S1 S2]|[[Sp [S1 S2]]|[Sp [S1 S2]]]].
  - lra.
  - rewrite Hport in Sp. specialize (Wf Sp). lra.
  - rewrite Hport in Sp. specialize (Wc Sp). lra.
Qed.

Lemma bot_events_fixed (env : Random) :
  labelled (AttackApp BotnetCnC) (run (installApplications plan) env)
  = labelled (AttackApp BotnetCnC) (run (installApplications plan) env_zero).
Proof. lazy. reflexivity. Qed.

(** X8.  With the timing values of the source every application lies inside
    the active window of the service it is aimed at, the C&C listener
    ([[20, 700]]) and the decoy HTTP server ([[10, 450]]) included; the
    three bot applications run from [546 + 0.2 i] to 607, inside the
    listener's window. *)
Theorem events_within_service_windows (env : Random) (B : Q) :
  variates_bounded B env ->
  exists ifs s,
    directory = Some ifs /\
    main env = Some s /\
    Forall2 (bot_event (GetAddress (dmzInterfaces ifs) 4) 546.0 607.0)
            (labelled (AttackApp BotnetCnC) (timeline s)) (indices 3) /\
    within_target_window (ipv4 ifs) (timeline s).
Proof.
  intros H. exists plan. eexists.
  split; [exact directory_plan|]. split; [apply main_plan|].
  simpl timeline. split.
  - rewrite bot_events_fixed. vm_compute labelled. vm_compute indices.
    forall2_by_computation.
  - apply window_ok_within. apply ensures_run.
    apply schedule_windows with (B := B). exact H.
Qed.

(** The assumption holds of the environment whose variates are all 1/2 and
    whose logarithms are all 7/10, with the bound 49. *)
Lemma events_within_service_windows_witness :
  variates_bounded 49 env_half /\
  exists ifs s,
    directory = Some ifs /\
    main env_half = Some s /\
    Forall2 (bot_event (GetAddress (dmzInterfaces ifs) 4) 546.0 607.0)
            (labelled (AttackApp BotnetCnC) (timeline s)) (indices 3) /\
    within_target_window (ipv4 ifs) (timeline s).
Proof.
  assert (H : variates_bounded 49 env_half).
  { split; intros s k; simpl; split; unfold Qle; simpl; lia. }
  split; [exact H|]. exact (events_within_service_windows env_half 49 H).
Defined.


(* ================================================================== *)
(** * Two runs of the build *)

Section TwoRuns.
Variables env1 env2 : Random.
Variable seeded : Prop.
Hypothesis Hseed : seeded -> same_draws env1 env2.

(** [c1 ~~ c2 @ RA]: [c1] run in [env1] and [c2] run in [env2] install
    applications that are pairwise the same event, and return values
    related by [RA]. *)
Local Notation "c1 ~~ c2 @ RA" :=
  (related env1 env2 (same_event seeded) RA c1 c2)
  (at level 70, c2 at next level, RA at next level).

(** The relation of two results that carry no information. *)
Local Notation "'any'" := (fun _ _ => True).

Lemma related_ret {A} (RA : A -> A -> Prop) (a b : A) :
  RA a b -> ret a ~~ ret b @ RA.
Proof.
  intros H st. split; [exact H|]. split; [reflexivity|apply Forall2_nil].
Qed.

Lemma related_bind {A B} (RA : A -> A -> Prop) (RB : B -> B -> Prop)
    (c1 c2 : M A) (k1 k2 : A -> M B) :
  c1 ~~ c2 @ RA ->
  (forall a b, RA a b -> k1 a ~~ k2 b @ RB) ->
  bind c1 k1 ~~ bind c2 k2 @ RB.
Proof.
  intros Hc Hk st. destruct (Hc st) as [Ha [Hst Hl]].
  unfold bind. simpl. rewrite Hst.
  destruct (Hk _ _ Ha (rng (c2 env2 st))) as [Hb [Hst' Hl']].
  split; [exact Hb|]. split; [exact Hst'|].
  apply Forall2_app; assumption.
Qed.

Lemma related_Install (a b : Application) :
  same_event seeded a b -> Install a ~~ Install b @ any.
Proof.
  intros H st. split; [exact I|]. split; [reflexivity|].
  apply Forall2_cons; [exact H|apply Forall2_nil].
Qed.

Lemma related_CreateUniform (min max : Q) :
  CreateUniform min max ~~ CreateUniform min max @ eq.
Proof.
  intros st. split; [reflexivity|]. split; [reflexivity|apply Forall2_nil].
Qed.

Lemma related_CreateExponential (mean : Q) :
  CreateExponential mean ~~ CreateExponential mean @ eq.
Proof.
  intros st. split; [reflexivity|]. split; [reflexivity|apply Forall2_nil].
Qed.

Lemma related_GetValue (x : UniformRandomVariable) :
  GetValue x ~~ GetValue x @ (agree seeded).
Proof.
  intros st. split; [|split; [reflexivity|apply Forall2_nil]].
  intros Hs. destruct (Hseed Hs) as [HU _]. simpl. rewrite HU. reflexivity.
Qed.

Lemma related_GetInteger (x : UniformRandomVariable) :
  GetInteger x ~~ GetInteger x @ (agree seeded).
Proof.
  intros st. split; [|split; [reflexivity|apply Forall2_nil]].
  intros Hs. destruct (Hseed Hs) as [HU _]. simpl. rewrite HU. reflexivity.
Qed.

Lemma related_GetValueExp (x : ExponentialRandomVariable) :
  GetValueExp x ~~ GetValueExp x @ (agree seeded).
Proof.
  intros st. split; [|split; [reflexivity|apply Forall2_nil]].
  intros Hs. destruct (Hseed Hs) as [HU [HL _]]. simpl.
  rewrite HU, HL. reflexivity.
Qed.

Lemma related_crand : crand ~~ crand @ (agree seeded).
Proof.
  intros st. split; [|split; [reflexivity|apply Forall2_nil]].
  intros Hs. destruct (Hseed Hs) as [_ [_ HR]]. simpl.
  rewrite HR. reflexivity.
Qed.

Lemma related_for_from (n : nat) (i0 : Z) (b1 b2 : Z -> M unit) :
  (forall i, b1 i ~~ b2 i @ any) ->
  for_from n i0 b1 ~~ for_from n i0 b2 @ any.
Proof.
  intros H. revert i0. induction n as [|n IH]; intros i0.
  - apply related_ret. exact I.
  - simpl for_from. eapply related_bind; [apply H|].
    intros _ _ _. apply IH.
Qed.

Lemma related_for (n : Z) (b1 b2 : Z -> M unit) :
  (forall i, b1 i ~~ b2 i @ any) -> for_ n b1 ~~ for_ n b2 @ any.
Proof. intros H. apply related_for_from. exact H. Qed.

Lemma related_for_attackers (count : Z) (c : NodeContainer)
    (b1 b2 : Z -> M unit) :
  (forall i, b1 i ~~ b2 i @ any) ->
  for_attackers count c b1 ~~ for_attackers count c b2 @ any.
Proof. intros H. apply related_for. exact H. Qed.

Lemma related_for_each {A} (v : list A) (b1 b2 : A -> M unit) :
  (forall x, b1 x ~~ b2 x @ any) -> for_each v b1 ~~ for_each v b2 @ any.
Proof.
  intros H. induction v as [|x v IH].
  - apply related_ret. exact I.
  - simpl for_each. eapply related_bind; [apply H|].
    intros _ _ _. exact IH.
Qed.

Lemma related_for_index_from {A} (v : list A) (i0 : Z)
    (b1 b2 : Z -> A -> M unit) :
  (forall i x, b1 i x ~~ b2 i x @ any) ->
  for_index_from v i0 b1 ~~ for_index_from v i0 b2 @ any.
Proof.
  intros H. revert i0. induction v as [|x v IH]; intros i0.
  - apply related_ret. exact I.
  - simpl for_index_from. eapply related_bind; [apply H|].
    intros _ _ _. apply IH.
Qed.

Lemma related_for_index {A} (v : list A) (b1 b2 : Z -> A -> M unit) :
  (forall i x, b1 i x ~~ b2 i x @ any) ->
  for_index v b1 ~~ for_index v b2 @ any.
Proof. intros H. apply related_for_index_from. exact H. Qed.

Lemma related_run (c1 c2 : M unit) :
  c1 ~~ c2 @ any ->
  Forall2 (same_event seeded) (run c1 env1) (run c2 env2).
Proof. intros H. exact (proj2 (proj2 (H rng0))). Qed.
End TwoRuns.

Lemma same_events_topology (seeded : Prop) (l1 l2 : list Application) :
  Forall2 (same_event seeded) l1 l2 -> Forall2 same_topology l1 l2.
Proof.
  intros H. eapply Forall2_impl; [|exact H]. intros a b [Ht _]. exact Ht.
Qed.

Lemma same_events_equal (seeded : Prop) (l1 l2 : list Application) :
  Forall2 (same_event seeded) l1 l2 -> seeded -> l1 = l2.
Proof.
  intros H Hs. induction H as [|a b l1 l2 [_ Hab] _ IH]; [reflexivity|].
  rewrite (Hab Hs), IH. reflexivity.
Qed.

(** Walks two copies of a build step in lockstep down to their
    [Install]s. *)
Ltac lockstep_step Hseed :=
  lazymatch goal with
  | |- related _ _ _ _ (bind _ _) (bind _ _) =>
      eapply related_bind
  | |- forall a b, _ -> related _ _ _ _ _ _ =>
      let a := fresh "a" in let b := fresh "b" in let H := fresh "H" in
      intros a b H; cbv beta in H;
      first [ clear a b H | subst b | idtac ]
  | |- related _ _ _ _ (Install _) (Install _) => apply related_Install
  | |- related _ _ _ _ (for_ _ _) (for_ _ _) =>
      apply related_for; intros ?
  | |- related _ _ _ _ (for_attackers _ _ _) (for_attackers _ _ _) =>
      apply related_for_attackers; intros ?
  | |- related _ _ _ _ (for_each _ _) (for_each _ _) =>
      apply related_for_each; intros ?
  | |- related _ _ _ _ (for_index _ _) (for_index _ _) =>
      apply related_for_index; intros ? ?
  | |- related _ _ _ _ (CreateUniform _ _) (CreateUniform _ _) =>
      apply related_CreateUniform
  | |- related _ _ _ _ (CreateExponential _) (CreateExponential _) =>
      apply related_CreateExponential
  | |- related _ _ _ _ (GetValue _) (GetValue _) =>
      apply (related_GetValue _ _ _ Hseed)
  | |- related _ _ _ _ (GetInteger _) (GetInteger _) =>
      apply (related_GetInteger _ _ _ Hseed)
  | |- related _ _ _ _ (GetValueExp _) (GetValueExp _) =>
      apply (related_GetValueExp _ _ _ Hseed)
  | |- related _ _ _ _ crand crand => apply (related_crand _ _ _ Hseed)
  end.

Ltac lockstep Hseed := repeat lockstep_step Hseed.

Ltac same_event_goal :=
  split;
  [ unfold same_topology; cbn;
    repeat split; try reflexivity; intros; discriminate
  | let Hs := fresh "Hs" in
    intros Hs;
    repeat match goal with
           | H : agree _ _ _ |- _ => specialize (H Hs)
           end;
    subst; reflexivity ].

Lemma schedule_related (env1 env2 : Random) (seeded : Prop)
    (ifs : Interfaces) :
  (seeded -> same_draws env1 env2) ->
  related env1 env2 (same_event seeded) (fun _ _ => True)
          (installApplications ifs) (installApplications ifs).
Proof.
  intros Hseed. unfold_blocks. lockstep Hseed.
  all: same_event_goal.
Qed.

(** C1 as the source implements it.  Two runs of the build install the
    same number of applications in the same order, and the applications at
    the same position have the same provenance, the same source node and
    the same target address, and the same target port unless they are
    email clients, whose port is drawn.  When the two runs draw the same
    variates, which is what a fixed seed gives, the two timelines are
    identical. *)
Theorem build_determinism (env1 env2 : Random) :
  exists s1 s2,
    main env1 = Some s1 /\
    main env2 = Some s2 /\
    Forall2 same_topology (timeline s1) (timeline s2) /\
    (same_draws env1 env2 -> timeline s1 = timeline s2).
Proof.
  do 2 eexists. split; [apply main_plan|]. split; [apply main_plan|].
  simpl timeline.
  pose proof (related_run _ _ _ _ _
                (schedule_related env1 env2 (same_draws env1 env2) plan
                                  (fun H => H))) as H.
  split.
  - eapply same_events_topology. exact H.
  - intros Hs. eapply same_events_equal; [exact H|exact Hs].
Qed.

(** Two runs in the same environment draw the same variates, and their
    timelines are identical. *)
Lemma build_determinism_witness :
  same_draws env_half env_half /\
  exists s1 s2,
    main env_half = Some s1 /\
    main env_half = Some s2 /\
    Forall2 same_topology (timeline s1) (timeline s2) /\
    timeline s1 = timeline s2.
Proof.
  assert (Hs : same_draws env_half env_half)
    by (repeat split; reflexivity).
  split; [exact Hs|].
  destruct (build_determinism env_half env_half)
    as [s1 [s2 [H1 [H2 [Ht He]]]]].
  exists s1, s2. repeat split; try assumption. exact (He Hs).
Defined.

Lemma same_endpoints_ports (l1 l2 : list Application) :
  Forall2 same_endpoints l1 l2 -> map app_port l1 = map app_port l2.
Proof.
  intros H. induction H as [|a b l1 l2 [_ [_ [_ Hp]]] _ IH]; [reflexivity|].
  simpl. rewrite Hp, IH. reflexivity.
Qed.

(** C1 as claimed fails: the target port of an email client is decided by
    a draw.  When every variate is 1/10 the protocol choice is
    [(uint32_t) 0.3], SMTP, port 25; when every variate is 1/2 it is
    [(uint32_t) 1.5], IMAP, port 143.  So two runs without a common seed can
    differ in the targets of their events. *)
Lemma email_target_depends_on_draw :
  ~ (exists s1 s2,
       main env_low = Some s1 /\
       main env_half = Some s2 /\
       Forall2 same_endpoints (timeline s1) (timeline s2)).
Proof.
  intros [s1 [s2 [H1 [H2 H]]]].
  rewrite main_plan in H1, H2. injection H1 as <-. injection H2 as <-.
  simpl timeline in H. apply same_endpoints_ports in H.
  vm_compute in H. discriminate H.
Qed.

(* ================================================================== *)
(** * The streaming clients and the directory *)

Lemma not_In_by_computation (x : Z) (l : list Z) :
  existsb (Z.eqb x) l = false -> ~ In x l.
Proof.
  intros H Hin.
  assert (E : existsb (Z.eqb x) l = true).
  { apply existsb_exists. exists x. split; [exact Hin|apply Z.eqb_refl]. }
  rewrite H in E. discriminate E.
Qed.

(** Whatever the directory binds, a streaming client is aimed at the
    literal 10.3.1.1. *)
Lemma streaming_address_literal (env : Random) (ifs : Interfaces) :
  ensures env
    (fun e => is_streaming e = true -> app_address e = Ipv4Address 10 3 1 1)
    (installApplications ifs) (fun _ => True).
Proof.
  unfold_blocks.
  hoare (fun _ : Q => True) (fun _ : Q => True)
        (fun _ _ : nat => I) (fun _ _ : nat => I).
  all: cbn [is_streaming app_label app_address]; intros Hs;
    first [reflexivity | discriminate Hs].
Qed.

(** C6, where the source departs from it.  For every directory the
    streaming clients are aimed at the literal 10.3.1.1.  Number the DMZ
    segment 10.4.1.0/24 instead of 10.3.1.0/24: the streaming server is
    installed on the first DMZ server, which is now at 10.4.1.1, and the ten
    enterprise HTTP clients follow it there; the thirty streaming clients
    still send to 10.3.1.1, an address that no interface of the topology
    owns. *)
Theorem streaming_targets_ignore_directory (env : Random) :
  (forall ifs,
      Forall (fun e => app_address e = Ipv4Address 10 3 1 1)
             (filter is_streaming (run (installApplications ifs) env))) /\
  exists ifs,
    directoryAt (Ipv4Address 10 4 1 0) = Some ifs /\
    map app_node
        (labelled (ServerApp StreamServer) (run (installApplications ifs) env))
      = [Get dmzServers 0] /\
    node_GetAddress (ipv4 ifs) (Get dmzServers 0) 1 = Ipv4Address 10 4 1 1 /\
    map app_address
        (labelled (ClientApp Enterprise HTTP)
                  (run (installApplications ifs) env))
      = repeat (Ipv4Address 10 4 1 1) 10 /\
    List.length (filter is_streaming (run (installApplications ifs) env))
      = 30%nat /\
    ~ In (Ipv4Address 10 3 1 1) (bound_addresses ifs).
Proof.
  split.
  - intros ifs. apply Forall_forall. intros e He.
    apply filter_In in He. destruct He as [He Hs].
    pose proof (ensures_run _ _ _ (streaming_address_literal env ifs)) as H.
    rewrite Forall_forall in H. exact (H e He Hs).
  - eexists. split; [vm_compute; reflexivity|].
    split; [lazy; reflexivity|].
    split; [vm_compute; reflexivity|].
    split; [lazy; reflexivity|].
    split; [lazy; reflexivity|].
    apply not_In_by_computation. vm_compute. reflexivity.
Qed.

(* ================================================================== *)
(** * Targets, sources and sizes of the applications *)

(** X1.  Whatever the directory binds, every client and attack generator
    but the streaming ones takes its target address from the directory: an
    address of a DMZ server, of the VPN server or of the core router, as
    the directory gives it. *)
Theorem targets_resolved_through_directory (env : Random) (ifs : Interfaces) :
  Forall (resolved_through ifs) (run (installApplications ifs) env).
Proof.
  apply ensures_run. unfold_blocks.
  hoare (fun _ : Q => True) (fun _ : Q => True)
        (fun _ _ : nat => I) (fun _ _ : nat => I).
  all: unfold resolved_through, directory_targets;
    cbn [is_server is_streaming app_helper app_label app_address];
    intros Hsrv Hstr;
    first [discriminate Hsrv | discriminate Hstr | (simpl; tauto)].
Qed.

(** X2.  Every email client, enterprise, Wi-Fi or remote, is a bulk
    transfer to the email server of the directory, on the SMTP, IMAP or
    POP3 port, whatever the draw of the protocol. *)
Theorem email_clients_target (env : Random) (ifs : Interfaces) :
  Forall (email_target ifs) (run (installApplications ifs) env).
Proof.
  apply ensures_run. unfold_blocks.
  hoare (fun _ : Q => True) (fun _ : Q => True)
        (fun _ _ : nat => I) (fun _ _ : nat => I).
  all: unfold email_target;
    cbn [is_email app_label app_helper app_address app_port];
    intros He;
    first
      [ discriminate He
      | split; [reflexivity|]; split; [reflexivity|];
        unfold emailPortOf;
        repeat match goal with
               | |- context [if ?c then _ else _] => destruct c
               end;
        simpl; tauto ].
Qed.

(** X3.  Every application is installed on a node that exists: the index
    passed to [Get] is below the size of the container; and every attack
    generator sits on one of the first three nodes of its container. *)
Theorem nodes_in_range (env : Random) (ifs : Interfaces) :
  Forall node_in_range (run (installApplications ifs) env).
Proof.
  apply ensures_run. unfold_blocks.
  hoare (fun _ : Q => True) (fun _ : Q => True)
        (fun _ _ : nat => I) (fun _ _ : nat => I).
  all: unfold node_in_range;
    cbn [is_attack app_label app_node node_index node_container];
    repeat match goal with
           | H : In _ ddosAttackers |- _ =>
               simpl in H; destruct H as [<-|[<-|[<-|[]]]]
           end;
    cbn [node_index node_container]; simpl GetN in *;
    (split; [lia|intros Ha; first [discriminate Ha | lia]]).
Qed.

Ltac between_goal :=
  unfold attribute_between; cbn [app_attributes attribute String.eqb];
  simpl attribute;
  eexists; split; [reflexivity|];
  remainder_facts; u32_simpl; lia.

(** X4.  The sizes the remote-client block computes from [rand()] stay
    inside the ranges of [remote_size], whatever [rand()] returns. *)
Theorem remote_sizes (env : Random) (ifs : Interfaces) :
  Forall remote_size_ok (run (installApplications ifs) env).
Proof.
  apply ensures_run. unfold_blocks.
  hoare (fun _ : Q => True) (fun _ : Q => True)
        (fun _ _ : nat => I) (fun _ _ : nat => I).
  all: unfold remote_size_ok; cbn [app_label]; try exact I.
  all: cbn [remote_size]; cbv beta in *.
  all: unfold SetConstantRate; between_goal.
Qed.

(* ================================================================== *)
(** * Sizes drawn from random variables *)

(** The truncation of a rational that lies between two integers. *)
Lemma trunc_floor (q : Q) : 0 <= q -> trunc q = Qfloor q.
Proof.
  destruct q as [n d]. unfold Qle, trunc, Qfloor. simpl. intros H.
  apply Z.quot_div_nonneg; lia.
Qed.

Lemma trunc_between (q : Q) (lo hi : Z) :
  (0 <= lo)%Z -> inject_Z lo <= q -> q < inject_Z (hi + 1) ->
  (lo <= trunc q <= hi)%Z.
Proof.
  intros Hlo H1 H2.
  assert (H0 : 0 <= q).
  { apply Qle_trans with (inject_Z lo); [|exact H1].
    change 0 with (inject_Z 0). rewrite <- Zle_Qle. exact Hlo. }
  rewrite (trunc_floor q H0). split.
  - rewrite <- (Qfloor_Z lo). apply Qfloor_resp_le. exact H1.
  - assert (H3 : inject_Z (Qfloor q) < inject_Z (hi + 1)).
    { apply Qle_lt_trans with q; [apply Qfloor_le|exact H2]. }
    rewrite <- Zlt_Qlt in H3. lia.
Qed.

Ltac drawn_between_goal :=
  unfold attribute_between; simpl attribute;
  eexists; split; [reflexivity|];
  draw_facts;
  lazymatch goal with
  | |- (?lo <= ?X <= ?hi)%Z =>
      lazymatch X with
      | context [trunc ?q] =>
          let H := fresh "H" in
          assert (H : (lo <= trunc q <= hi)%Z);
          [ apply trunc_between;
            [ lia
            | let v := eval vm_compute in (inject_Z lo) in
              change (inject_Z lo) with v; nra
            | let v := eval vm_compute in (inject_Z (hi + 1)) in
              change (inject_Z (hi + 1)) with v; nra ]
          | u32_simpl; exact H ]
      end
  end.

(** X5.  With uniform variates in [[0, 1)], the sizes the enterprise and
    Wi-Fi blocks draw from a uniform variable and convert to an unsigned
    integer stay inside the [Min] and [Max] given to the variable. *)
Theorem uniform_sizes (env : Random) (ifs : Interfaces) :
  variates_unit env ->
  Forall uniform_size_ok (run (installApplications ifs) env).
Proof.
  intros HU. apply ensures_run. unfold_blocks.
  hoare (fun u : Q => 0 <= u < 1) (fun _ : Q => True) HU (fun _ _ : nat => I).
  all: unfold uniform_size_ok; cbn [app_label uniform_size]; try exact I.
  all: drawn_between_goal.
Qed.

(** The assumption holds of the environment whose variates are all 1/2. *)
Lemma uniform_sizes_witness :
  variates_unit env_half /\
  Forall uniform_size_ok (run (installApplications plan) env_half).
Proof.
  assert (H : variates_unit env_half).
  { intros s k. simpl. split; [unfold Qle|unfold Qlt]; simpl; lia. }
  split; [exact H|]. exact (uniform_sizes env_half plan H).
Defined.





(* ================================================================== *)
(** * The attack phases *)

Lemma attacks_in_declared_windows (env : Random) (ifs : Interfaces) :
  Forall in_declared_window (run (installApplications ifs) env).
Proof.
  apply ensures_run. unfold_blocks.
  hoare (fun _ : Q => True) (fun _ : Q => True)
        (fun _ _ : nat => I) (fun _ _ : nat => I).
  all: unfold in_declared_window;
    cbn [app_label app_start app_stop declared_window fst snd];
    try exact I.
  all: split; [time_arith|split; [time_arith|reflexivity]].
Qed.

Lemma declared_windows_in_sequence (ka kb : AttackKind) :
  ka = kb \/ concurrent ka kb \/
  snd (declared_window ka) <= fst (declared_window kb) \/
  snd (declared_window kb) <= fst (declared_window ka).
Proof.
  unfold concurrent.
  destruct ka, kb;
    first
      [ left; reflexivity
      | right; left; left; split; reflexivity
      | right; left; right; split; reflexivity
      | right; right; left; unfold Qle; simpl; lia
      | right; right; right; unfold Qle; simpl; lia ].
Qed.

Lemma in_declared_windows_in_sequence (a b : Application) :
  in_declared_window a -> in_declared_window b -> in_sequence a b.
Proof.
  unfold in_declared_window, in_sequence.
  destruct (app_label a) as [| |ka]; try (intros; exact I).
  destruct (app_label b) as [| |kb]; try (intros; exact I).
  intros [Ha1 [Ha2 Ha3]] [Hb1 [Hb2 Hb3]].
  destruct (declared_windows_in_sequence ka kb) as [H|[H|[H|H]]].
  - left. exact H.
  - right. left. exact H.
  - right. right. left. lra.
  - right. right. right. lra.
Qed.

Lemma ddos_events_fixed (env : Random) :
  labelled (AttackApp DDoS) (run (installApplications plan) env)
  = labelled (AttackApp DDoS) (run (installApplications plan) env_zero).
Proof. lazy. reflexivity. Qed.

Lemma labelled_In (l : Provenance) (tl : list Application)
    (a : Application) :
  In a (labelled l tl) -> In a tl /\ app_label a = l.
Proof.
  unfold labelled. intros H. apply filter_In in H. destruct H as [H Hl].
  split; [exact H|]. unfold has_label in Hl.
  apply internal_Provenance_dec_bl. exact Hl.
Qed.

Lemma bots_overlap_ddos (env : Random) :
  exists a b,
    In a (labelled (AttackApp BotnetCnC) (run (installApplications plan) env))
    /\ In b (labelled (AttackApp DDoS) (run (installApplications plan) env))
    /\ app_start b < app_stop a /\ app_start a < app_stop b.
Proof.
  rewrite bot_events_fixed, ddos_events_fixed.
  vm_compute labelled.
  eexists. eexists.
  split; [left; reflexivity|]. split; [left; reflexivity|].
  split; vm_compute; reflexivity.
Qed.

(** X7.  Attack applications of two different kinds never run at the same
    time: one has stopped when the other starts; but for the botnet and the
    DDoS applications, whose windows 546 to 607 and 583 to 608 overlap. *)
Theorem attack_phases_in_sequence (env : Random) :
  exists s,
    main env = Some s /\
    Forall (fun a => Forall (in_sequence a) (timeline s)) (timeline s) /\
    exists a b,
      In a (timeline s) /\ In b (timeline s) /\
      app_label a = AttackApp BotnetCnC /\ app_label b = AttackApp DDoS /\
      app_start b < app_stop a /\ app_start a < app_stop b.
Proof.
  eexists. split; [apply main_plan|]. simpl timeline.
  pose proof (attacks_in_declared_windows env plan) as H.
  pose proof (bots_overlap_ddos env) as O.
  revert H O. generalize (run (installApplications plan) env). intros tl H O.
  split.
  - apply Forall_forall. intros a Ha. apply Forall_forall. intros b Hb.
    rewrite Forall_forall in H.
    apply in_declared_windows_in_sequence; apply H; assumption.
  - destruct O as [a [b [Ha [Hb [O1 O2]]]]].
    apply labelled_In in Ha. apply labelled_In in Hb.
    destruct Ha as [Ha La]. destruct Hb as [Hb Lb].
    exists a, b. repeat split; assumption.
Qed.

(* ================================================================== *)
(** * Listeners and the traffic aimed at them *)

Lemma Node_eqb_eq (a b : Node) : Node_eqb a b = true <-> a = b.
Proof.
  unfold Node_eqb. destruct a as [ca ia], b as [cb ib]. simpl.
  rewrite andb_true_iff, Z.eqb_eq. split.
  - intros [Hc Hi]. apply internal_NodeContainer_dec_bl in Hc. congruence.
  - intros H. injection H as -> ->. split; [|reflexivity].
    apply internal_NodeContainer_dec_lb. reflexivity.
Qed.

Lemma servesb_serves (all : list Ipv4Interface) (s e : Application) :
  servesb all s e = true <-> serves all s e.
Proof.
  unfold servesb, serves.
  rewrite !andb_true_iff, negb_true_iff, Z.eqb_eq, existsb_exists.
  split.
  - intros [[[[H1 H2] H3] H4] [x [Hx Hb]]].
    apply andb_true_iff in Hb. destruct Hb as [Hn Ha].
    apply Node_eqb_eq in Hn. apply Z.eqb_eq in Ha.
    apply internal_SocketFactory_dec_bl in H3. eauto 10.
  - intros [H1 [H2 [H3 [H4 [x [Hx [Hn Ha]]]]]]].
    repeat split; try assumption.
    + apply internal_SocketFactory_dec_lb. exact H3.
    + exists x. split; [exact Hx|]. apply andb_true_iff. split.
      * apply Node_eqb_eq. exact Hn.
      * apply Z.eqb_eq. exact Ha.
Qed.

Lemma served_serves (all : list Ipv4Interface) (tl : list Application)
    (e : Application) :
  served all tl e = true <-> exists s, In s tl /\ serves all s e.
Proof.
  unfold served. rewrite existsb_exists. split.
  - intros [s [Hs H]]. exists s. split; [exact Hs|].
    apply servesb_serves. exact H.
  - intros [s [Hs H]]. exists s. split; [exact Hs|].
    apply servesb_serves. exact H.
Qed.

Lemma served_by_servers (all : list Ipv4Interface) (tl : list Application)
    (e : Application) :
  served all tl e = served all (filter is_server tl) e.
Proof.
  unfold served. induction tl as [|s tl IH]; [reflexivity|].
  simpl. destruct (is_server s) eqn:Hs.
  - simpl. rewrite IH. reflexivity.
  - rewrite IH. unfold servesb at 1. rewrite Hs. reflexivity.
Qed.

(** The server applications do not depend on the draws. *)
Lemma servers_fixed (env : Random) :
  filter is_server (run (installApplications plan) env)
  = filter is_server (run (installApplications plan) env_zero).
Proof. lazy. reflexivity. Qed.

Lemma listeners_answer (env : Random) :
  Forall (fun e =>
            is_server e = false ->
            served (ipv4 plan)
              (filter is_server (run (installApplications plan) env_zero)) e
            = aimed_at_listener e)
         (run (installApplications plan) env).
Proof.
  apply ensures_run.
  set (srv := filter is_server (run (installApplications plan) env_zero)).
  vm_compute in srv.
  unfold_blocks.
  hoare (fun _ : Q => True) (fun _ : Q => True)
        (fun _ _ : nat => I) (fun _ _ : nat => I).
  all: cbn [is_server app_helper]; intros Hsrv; try discriminate Hsrv.
  all: clear Hsrv; unfold served, servesb, aimed_at_listener;
    cbn [is_server app_helper app_label app_factory app_port app_address].
  all: repeat match goal with
              | H : In _ portsToScan |- _ =>
                  simpl in H;
                  repeat (destruct H as [<-|H]; [|try contradiction])
              end.
  all: unfold emailPortOf;
    repeat match goal with
           | |- context [if (?c =? ?k)%Z then _ else _] =>
               destruct (c =? k)%Z
           end.
  all: vm_compute; reflexivity.
Qed.

(** X9.  A client or attack application finds a listener of the build at its
    target exactly when it comes from one of the generators described by
    [aimed_at_listener]: every benign client does, the ICMP flood, the VPN
    flood, the credential stuffing, the ARP spoofing and the DDoS do not,
    and the port scan does on two ports of twelve. *)
Theorem traffic_and_listeners (env : Random) :
  exists ifs s,
    directory = Some ifs /\
    main env = Some s /\
    Forall (fun e =>
              is_server e = false ->
              ((exists srv, In srv (timeline s) /\ serves (ipv4 ifs) srv e)
               <-> aimed_at_listener e = true))
           (timeline s).
Proof.
  exists plan. eexists.
  split; [exact directory_plan|]. split; [apply main_plan|].
  simpl timeline.
  pose proof (listeners_answer env) as H.
  pose proof (servers_fixed env) as F.
  revert H F. generalize (run (installApplications plan) env).
  intros tl H F.
  apply Forall_forall. intros e He Hsrv.
  rewrite Forall_forall in H. specialize (H e He Hsrv).
  rewrite <- served_serves, served_by_servers, F, H. reflexivity.
Qed.

(** X10.  No two server applications listen on the same node and port. *)
Theorem listeners_distinct (env : Random) :
  exists s,
    main env = Some s /\
    NoDup (map listening_end (filter is_server (timeline s))).
Proof.
  eexists. split; [apply main_plan|]. simpl timeline.
  rewrite servers_fixed. vm_compute map.
  repeat (constructor;
          [ let H := fresh "H" in
            intros H; simpl in H;
            repeat (destruct H as [H|H]; [discriminate H|]); exact H
          | ]).
  constructor.
Qed.

(* ================================================================== *)
(** * The number of applications *)

Lemma labels_fixed (env : Random) :
  map app_label (run (installApplications plan) env)
  = map app_label (run (installApplications plan) env_zero).
Proof. lazy. reflexivity. Qed.

Lemma count_labels (f : Application -> bool) (g : Provenance -> bool)
    (tl : list Application) :
  (forall a, f a = g (app_label a)) ->
  count f tl = List.length (filter g (map app_label tl)).
Proof.
  intros H. unfold count. induction tl as [|a tl IH]; [reflexivity|].
  simpl. rewrite H. destruct (g (app_label a)); simpl; rewrite IH; reflexivity.
Qed.

(** X11.  Whatever the draws, the build installs 1085 applications: 12 servers,
    633 enterprise, 80 Wi-Fi and 80 remote client applications, and 280
    attack applications. *)
Theorem application_counts (env : Random) :
  exists s,
    main env = Some s /\
    List.length (timeline s) = 1085%nat /\
    count is_server (timeline s) = 12%nat /\
    count (of_population Enterprise) (timeline s) = 633%nat /\
    count (of_population WiFi) (timeline s) = 80%nat /\
    count (of_population Remote) (timeline s) = 80%nat /\
    count is_attack (timeline s) = 280%nat.
Proof.
  eexists. split; [apply main_plan|]. simpl timeline.
  pose proof (labels_fixed env) as L.
  pose proof (servers_fixed env) as F.
  revert L F. generalize (run (installApplications plan) env).
  intros tl L F.
  split; [rewrite <- (length_map app_label), L; vm_compute; reflexivity|].
  split; [unfold count; rewrite F; vm_compute; reflexivity|].
  repeat split.
  - rewrite (count_labels _ (fun l => match l with
                                      | ClientApp q _ =>
                                          Population_beq Enterprise q
                                      | _ => false
                                      end)) by reflexivity.
    rewrite L. vm_compute. reflexivity.
  - rewrite (count_labels _ (fun l => match l with
                                      | ClientApp q _ => Population_beq WiFi q
                                      | _ => false
                                      end)) by reflexivity.
    rewrite L. vm_compute. reflexivity.
  - rewrite (count_labels _ (fun l => match l with
                                      | ClientApp q _ =>
                                          Population_beq Remote q
                                      | _ => false
                                      end)) by reflexivity.
    rewrite L. vm_compute. reflexivity.
  - rewrite (count_labels _ (fun l => match l with
                                      | AttackApp _ => true
                                      | _ => false
                                      end)) by reflexivity.
    rewrite L. vm_compute. reflexivity.
Qed.

(* ================================================================== *)
(** * Targets and the addresses of the plan *)

Lemma targets_in_plan (env : Random) :
  Forall (fun e =>
            is_server e = false ->
            existsb (Z.eqb (app_address e)) (bound_addresses plan) = true)
         (run (installApplications plan) env).
Proof.
  apply ensures_run.
  set (bound := bound_addresses plan). vm_compute in bound.
  unfold_blocks.
  hoare (fun _ : Q => True) (fun _ : Q => True)
        (fun _ _ : nat => I) (fun _ _ : nat => I).
  all: cbn [is_server app_helper app_address]; intros Hsrv;
    try discriminate Hsrv.
  all: vm_compute; reflexivity.
Qed.

(** X12.  With the address plan of the source every client and attack
    application, the streaming clients with their literal address
    included, is aimed at an address that the plan has assigned to an
    interface. *)
Theorem targets_bound (env : Random) :
  exists ifs s,
    directory = Some ifs /\
    main env = Some s /\
    Forall (fun e =>
              is_server e = false ->
              In (app_address e) (bound_addresses ifs))
           (timeline s).
Proof.
  exists plan. eexists.
  split; [exact directory_plan|]. split; [apply main_plan|].
  simpl timeline.
  pose proof (targets_in_plan env) as H.
  revert H. generalize (run (installApplications plan) env). intros tl H.
  apply Forall_forall. intros e He Hsrv.
  rewrite Forall_forall in H. specialize (H e He Hsrv).
  apply existsb_exists in H. destruct H as [x [Hx Hq]].
  apply Z.eqb_eq in Hq. rewrite Hq. exact Hx.
Qed.
